(** * Event-Manager-Bot: event specification parser and validator

    A shallow embedding of the TypeScript sources

    - [src/src/EventDetails.ts]        ([extractEventdetails], [EventDetails]),
    - [src/src/additionalFunctions.ts] ([parseCustomDate],
      [getWeekdayNameFromDate], [eventHasEmptyValues], [checkTimeInPast],
      [startTimebBeforeEndTime]),
    - the latest revision of [eventFunctions.ts] ([createNewDiscordEvent],
      [createNewDiscordSchedule]),

    and the properties of the specification that concern them.

    Conventions.  A JavaScript value that is a string or [undefined] is an
    [option string]; a [number] is [NaN], an infinity or the exact rational
    value of a finite double; a [Date] object is its time value together
    with an object identity (loose equality [==] on objects compares
    identities).  The system clock, the object allocator and the messages
    written to the logger, to the reply channel and to the scheduled-event
    API are threaded through a small state / exception / trace monad.
    What the JavaScript runtime, luxon and discord.js contribute (string to
    number conversion, the time-zone database, the numeric values of an
    enumeration, the outcome of remote calls) is collected in the record
    [Platform], over which every statement is quantified.  The reply channel
    is the channel the command arrived on: sending to it is recorded in the
    trace and does not fail. *)

From Stdlib Require Import ZArith QArith Bool List String Ascii Lia.
Import ListNotations.

Local Open Scope string_scope.
Local Open Scope Z_scope.

(* ================================================================== *)
(** * JavaScript values *)
(* ================================================================== *)

Module JS.

(** ** Numbers *)

(** A JavaScript number: every finite double is a rational. *)
Inductive number : Type :=
| NaN
| Num (q : Q)
| Infinity (negative : bool).

(** [a < b]; a comparison with [NaN] is never true. *)
Definition lt (a b : number) : bool :=
  match a, b with
  | NaN, _ | _, NaN => false
  | Num x, Num y => negb (Qle_bool y x)
  | Num _, Infinity neg => negb neg
  | Infinity neg, Num _ => neg
  | Infinity n1, Infinity n2 => n1 && negb n2
  end.

(** [a > b]. *)
Definition gt (a b : number) : bool := lt b a.

(** [a == b] on numbers. *)
Definition eq (a b : number) : bool :=
  match a, b with
  | Num x, Num y => Qeq_bool x y
  | Infinity n1, Infinity n2 => Bool.eqb n1 n2
  | _, _ => false
  end.

(** The number denoted by an integer literal. *)
Definition int (n : Z) : number := Num (inject_Z n).

(** ** Strings and [undefined] *)

(** [v == s] for [v] a string or [undefined] and [s] a string literal:
    [undefined == ""] is false. *)
Definition looseEq (v : option string) (s : string) : bool :=
  match v with
  | Some x => String.eqb x s
  | None => false
  end.

(** [v === s], as a [switch] compares its subject with a [case] label. *)
Definition strictEq (v : option string) (s : string) : bool :=
  match v with
  | Some x => String.eqb x s
  | None => false
  end.

(** [s.split("; ")]: the pieces between the non-overlapping occurrences of
    the separator, scanned from the left; [cur] holds the piece being read,
    last character first. *)
Fixpoint splitFrom (cur : list ascii) (s : string) : list string :=
  match s with
  | EmptyString => [string_of_list_ascii (rev cur)]
  | String c rest =>
      match rest with
      | String c' rest' =>
          if Ascii.eqb c ";" && Ascii.eqb c' " "
          then string_of_list_ascii (rev cur) :: splitFrom [] rest'
          else splitFrom (c :: cur) rest
      | EmptyString => splitFrom (c :: cur) rest
      end
  end.

Definition split (s : string) : list string := splitFrom [] s.

(** The class [\d] of a regular expression without the [u] flag. *)
Definition isDigit (c : ascii) : bool :=
  let n := nat_of_ascii c in (48 <=? n)%nat && (n <=? 57)%nat.

Definition digitValue (c : ascii) : Z := Z.of_nat (nat_of_ascii c) - 48.

(** The decimal value of a run of digits. *)
Definition digitsValue (ds : list ascii) : Z :=
  fold_left (fun acc c => 10 * acc + digitValue c) ds 0.

(** ** Dates *)

(** A [Date] object holding a valid time value (milliseconds since the
    epoch): the program only builds dates from a parsed instant, from [null]
    and from the clock.  [ref] is the identity of the object. *)
Record Date : Type := mkDate { ref : nat; time : Z }.

(** [a == b] on two objects: the same object. *)
Definition sameObject (a b : Date) : bool := Nat.eqb (ref a) (ref b).

End JS.

Import JS.

(* ================================================================== *)
(** * What the program exchanges with discord.js *)
(* ================================================================== *)

Module Discord.

(** [GuildScheduledEventRecurrenceRuleWeekday]. *)
Inductive Weekday : Type :=
| Sunday | Monday | Tuesday | Wednesday | Thursday | Friday | Saturday.

(** [GuildScheduledEventRecurrenceRuleFrequency]. *)
Inductive Frequency : Type := Yearly | Monthly | Weekly | Daily.

(** The [recurrenceRule] of a scheduled event; [startAt] is the instant of
    the date (or of its ISO string) passed by the program. *)
Record RecurrenceRule : Type := mkRule {
  frequency : Frequency;
  interval : number;
  startAt : Z;
  byWeekday : list Weekday
}.

(** The options handed to [guild.scheduledEvents.create]; the privacy level
    and the entity type are the same constants in every call. *)
Record EventOptions : Type := mkOptions {
  name : option string;
  scheduledStartTime : Date;
  scheduledEndTime : Date;
  location : option string;
  description : option string;
  image : string;
  recurrenceRule : option RecurrenceRule
}.

End Discord.

(** Exceptions. *)
Inductive Exn : Type :=
| TypeError                       (* a property read on [undefined] *)
| InvalidWeekdayIndex (day : Z)   (* thrown by [getWeekdayNameFromDate] *)
| ApiError.                       (* a remote call was rejected *)

(** The texts the program writes, one constructor per template. *)
Inductive Message : Type :=
| MInvalidDateFormat (dateTime : string)
| MInvalidTimeOrTimezone
| MInvokingEvent (eventInfo : string)
| MInvokingSchedule (eventInfo : string)
| MCheckDetails (eventInfo : string)
| MEventFormat
| MScheduleFormat
| MTimeInPast
| MEndBeforeStart
| MNoServer
| MTryDaily
| MTryWeekly
| MWeeklyInterval (frequency : number)
| MMonthlyNotWorking
| MCouldNotFetchSchedule (interval : option string)
| MScheduleNotValid (interval : option string)
| MEventCreated (name : option string) (startTime : Date)
| MScheduleCreated (name : option string) (startTime : Date)
                   (interval : option string) (frequency : number)
                   (frequence : string)
| MFailedToCreate (e : Exn).

(** What the program does to the outside, in order. *)
Inductive Effect : Type :=
| LogInfo (m : Message)
| LogError (m : Message)
| Send (m : Message)                    (* [channel.send] *)
| Create (o : Discord.EventOptions).    (* [guild.scheduledEvents.create] *)

(** The environment of a run. *)
Record Platform : Type := mkPlatform {
  (** the successive readings of the system clock, in milliseconds *)
  clockAt : nat -> Z;
  (** unary [+] on a string *)
  toNumber : string -> number;
  (** [String.prototype.trim] *)
  trim : string -> string;
  (** luxon's zones: [None] for an identifier it does not recognise,
      otherwise the map from a local wall-clock time (counted in
      milliseconds as if it were UTC) to the instant it denotes there *)
  zoneToUTC : string -> option (Z -> Z);
  (** the same map for luxon's default zone *)
  defaultZoneToUTC : Z -> Z;
  (** offset, in minutes, of the local time of the process at an instant *)
  localOffset : Z -> Z;
  (** the numeric value of a member of the weekday enumeration *)
  weekdayValue : Discord.Weekday -> Z;
  (** whether [client.guilds.fetch] resolves *)
  fetchGuild : string -> bool;
  (** whether [guild.scheduledEvents.create] resolves *)
  createEvent : Discord.EventOptions -> bool
}.

(* ================================================================== *)
(** * The monad of the embedding *)
(* ================================================================== *)

(** The part of the state the program can observe: how often the clock
    has been read and how many objects have been allocated. *)
Record World : Type := mkWorld { reads : nat; nextRef : nat }.

Inductive Outcome (A : Type) : Type :=
| Returned (a : A)
| Thrown (e : Exn).
Arguments Returned {A} a.
Arguments Thrown {A} e.

Record Res (A : Type) : Type := mkRes {
  outcome : Outcome A;
  world : World;
  effects : list Effect
}.
Arguments mkRes {A} _ _ _.
Arguments outcome {A} _.
Arguments world {A} _.
Arguments effects {A} _.

Definition M (A : Type) : Type := World -> Res A.

Definition ret {A} (a : A) : M A := fun w => mkRes (Returned a) w [].

Definition bind {A B} (m : M A) (f : A -> M B) : M B :=
  fun w =>
    match m w with
    | mkRes (Returned a) w1 e1 =>
        match f a w1 with
        | mkRes o w2 e2 => mkRes o w2 (e1 ++ e2)
        end
    | mkRes (Thrown e) w1 e1 => mkRes (Thrown e) w1 e1
    end.

Definition throw {A} (e : Exn) : M A := fun w => mkRes (Thrown e) w [].

(** [try { body } catch (e) { handler e }]. *)
Definition tryCatch {A} (body : M A) (handler : Exn -> M A) : M A :=
  fun w =>
    match body w with
    | mkRes (Returned a) w1 e1 => mkRes (Returned a) w1 e1
    | mkRes (Thrown e) w1 e1 =>
        match handler e w1 with
        | mkRes o w2 e2 => mkRes o w2 (e1 ++ e2)
        end
    end.

Definition emit (e : Effect) : M unit := fun w => mkRes (Returned tt) w [e].

Declare Scope js_scope.
Delimit Scope js_scope with js.
Notation "x <- m ;; k" := (bind m (fun x => k))
  (at level 100, m at next level, right associativity) : js_scope.
Notation "m ;;; k" := (bind m (fun _ => k))
  (at level 100, right associativity) : js_scope.
(** [a || b] with [b] evaluated only when [a] is false. *)
Definition orElse (a b : M bool) : M bool :=
  bind a (fun x => if x then ret true else b).
Notation "a <||> b" := (orElse a b)
  (at level 85, right associativity) : js_scope.
Local Open Scope js_scope.

(** The value returned by a run, if it returned. *)
Definition returned {A} (r : Res A) : option A :=
  match outcome r with
  | Returned a => Some a
  | Thrown _ => None
  end.

Section Clock.

Context (P : Platform).

(** [Date.now()]. *)
Definition dateNow : M Z :=
  fun w => mkRes (Returned (clockAt P (reads w)))
                 (mkWorld (S (reads w)) (nextRef w)) [].

(** A new [Date] object with the time value [t]. *)
Definition allocDate (t : Z) : M Date :=
  fun w => mkRes (Returned (mkDate (nextRef w) t))
                 (mkWorld (reads w) (S (nextRef w))) [].

(** [new Date()]. *)
Definition newDate : M Date := t <- dateNow ;; allocDate t.

(** [new Date(v)] for [v] a [Date] or [null]: a copy of the date, and the
    epoch for [null], which converts to the number 0. *)
Definition newDateOf (v : option Date) : M Date :=
  match v with
  | Some d => allocDate (time d)
  | None => allocDate 0
  end.

End Clock.

(* ================================================================== *)
(** * luxon: [DateTime.fromFormat(text, 'yyyy-MM-dd HH:mm', { zone })] *)
(* ================================================================== *)

Module Luxon.

Definition isLeapYear (y : Z) : bool :=
  (y mod 4 =? 0) && (negb (y mod 100 =? 0) || (y mod 400 =? 0)).

Definition daysInMonth (y m : Z) : Z :=
  if m =? 2 then (if isLeapYear y then 29 else 28)
  else if (m =? 4) || (m =? 6) || (m =? 9) || (m =? 11) then 30
  else 31.

(** Days between 1970-01-01 and a day of the proleptic Gregorian calendar. *)
Definition daysFromCivil (y m d : Z) : Z :=
  let y' := if m <=? 2 then y - 1 else y in
  let era := y' / 400 in
  let yoe := y' - era * 400 in
  let mp := (m + 9) mod 12 in
  let doy := (153 * mp + 2) / 5 + d - 1 in
  let doe := yoe * 365 + yoe / 4 - yoe / 100 + doy in
  era * 146097 + doe - 719468.

(** The wall-clock time counted in milliseconds as if it were UTC. *)
Definition localMillis (y m d h mi : Z) : Z :=
  daysFromCivil y m d * 86400000 + h * 3600000 + mi * 60000.

(** The fields read by the tokens [yyyy-MM-dd HH:mm]. *)
Definition parseTokens (text : string) : option (Z * Z * Z * Z * Z) :=
  match list_ascii_of_string text with
  | [y1; y2; y3; y4; s1; m1; m2; s2; d1; d2; s3; h1; h2; s4; n1; n2] =>
      if forallb isDigit [y1; y2; y3; y4; m1; m2; d1; d2; h1; h2; n1; n2]
         && Ascii.eqb s1 "-" && Ascii.eqb s2 "-"
         && Ascii.eqb s3 " " && Ascii.eqb s4 ":"
      then Some (digitsValue [y1; y2; y3; y4], digitsValue [m1; m2],
                 digitsValue [d1; d2], digitsValue [h1; h2],
                 digitsValue [n1; n2])
      else None
  | _ => None
  end.

(** A day of the calendar and a time of the day (24:00 is accepted). *)
Definition validFields (f : Z * Z * Z * Z * Z) : bool :=
  let '(y, m, d, h, mi) := f in
  (1 <=? m) && (m <=? 12) && (1 <=? d) && (d <=? daysInMonth y m)
  && ((h <=? 23) || ((h =? 24) && (mi =? 0))) && (mi <=? 59).

Section Zones.

Context (P : Platform).

(** The zone given in the options; an absent one is the default zone. *)
Definition normalizeZone (zone : option string) : option (Z -> Z) :=
  match zone with
  | None => Some (defaultZoneToUTC P)
  | Some z => zoneToUTC P z
  end.

(** [None] is an invalid [DateTime] ([isValid] false), [Some ts] a valid one
    at the instant [ts]. *)
Definition fromFormat (text : string) (zone : option string) : option Z :=
  match parseTokens text with
  | None => None
  | Some f =>
      match normalizeZone zone with
      | None => None
      | Some toUTC =>
          if validFields f
          then let '(y, m, d, h, mi) := f in
               Some (toUTC (localMillis y m d h mi))
          else None
      end
  end.

End Zones.

End Luxon.

(* ================================================================== *)
(** * additionalFunctions.ts: [parseCustomDate] *)
(* ================================================================== *)

(** [dateTime.match(/^(\d{4}-\d{2}-\d{2}) (\d{2}):(\d{2})$/)]: the three
    groups, or [None] for [null]. *)
Definition matchDateTime (dateTime : string)
  : option (string * string * string) :=
  match list_ascii_of_string dateTime with
  | [y1; y2; y3; y4; s1; m1; m2; s2; d1; d2; s3; h1; h2; s4; n1; n2] =>
      if forallb isDigit [y1; y2; y3; y4; m1; m2; d1; d2; h1; h2; n1; n2]
         && Ascii.eqb s1 "-" && Ascii.eqb s2 "-"
         && Ascii.eqb s3 " " && Ascii.eqb s4 ":"
      then Some (string_of_list_ascii
                   [y1; y2; y3; y4; s1; m1; m2; s2; d1; d2],
                 string_of_list_ascii [h1; h2],
                 string_of_list_ascii [n1; n2])
      else None
  | _ => None
  end.

(** The record built by [extractEventdetails]. *)
Record EventDetails : Type := mkEventDetails {
  eventName : option string;
  startTime : Date;
  endTime : Date;
  timezone : option string;
  eventLocation : option string;
  description : option string;
  interval : option string;
  frequency : number
}.

Section Program.

Context (P : Platform).

(** [parseCustomDate(dateTime, tz)].  Both arguments are declared [string];
    the callers pass array elements through [!], so either can be
    [undefined] at run time.  The result is a new [Date] or [null]. *)
Definition parseCustomDate (dateTime tz : option string) : M (option Date) :=
  match dateTime with
  | None => throw TypeError
  | Some text =>
      match matchDateTime text with
      | None =>
          emit (LogError (MInvalidDateFormat text)) ;;;
          ret None
      | Some (datePart, hourStr, minuteStr) =>
          match Luxon.fromFormat P
                  (datePart ++ " " ++ hourStr ++ ":" ++ minuteStr) tz with
          | None =>
              emit (LogError MInvalidTimeOrTimezone) ;;;
              ret None
          | Some ts =>
              returnDate <- allocDate ts ;;
              ret (Some returnDate)
          end
      end
  end.

(* ================================================================== *)
(** * EventDetails.ts: [extractEventdetails] *)
(* ================================================================== *)

(** Unary [+] on a string or [undefined]. *)
Definition unaryPlus (v : option string) : number :=
  match v with
  | Some s => toNumber P s
  | None => NaN
  end.

Definition extractEventdetails (baseString eventType : string)
  : M EventDetails :=
  let eventInfoParts := split baseString in
  (* Catch Empty Timezone *)
  let eventTimezone := nth_error eventInfoParts 3 in
  let eventTimezone :=
    if looseEq eventTimezone "" then Some "Europe/Amsterdam"
    else eventTimezone in
  (* Define the remaining attributes *)
  let eventName := nth_error eventInfoParts 0 in
  parsedStart <- parseCustomDate (nth_error eventInfoParts 1) eventTimezone ;;
  startTime <- newDateOf parsedStart ;;
  parsedEnd <- parseCustomDate (nth_error eventInfoParts 2) eventTimezone ;;
  endTime <- newDateOf parsedEnd ;;
  let location := nth_error eventInfoParts 4 in
  let eventDescription := nth_error eventInfoParts 5 in
  if String.eqb eventType "New Event" then
    ret (mkEventDetails eventName startTime endTime eventTimezone location
           eventDescription (Some "") (int 0))
  else if String.eqb eventType "New Schedule" then
    let eventInterval := nth_error eventInfoParts 6 in
    let eventIntervalFrequency :=
      unaryPlus (option_map (trim P) (nth_error eventInfoParts 7)) in
    ret (mkEventDetails eventName startTime endTime eventTimezone location
           eventDescription eventInterval eventIntervalFrequency)
  else
    (* If Input is invalid, return an empty object *)
    startTime' <- newDate P ;;
    endTime' <- newDate P ;;
    ret (mkEventDetails (Some "") startTime' endTime' (Some "") (Some "")
           (Some "") (Some "") (int 0)).

(* ================================================================== *)
(** * additionalFunctions.ts: the checks *)
(* ================================================================== *)

(** [date.getDay()]: the day of the week, Sunday being 0, in the local time
    of the process (1970-01-01 was a Thursday). *)
Definition getDay (date : Date) : Z :=
  ((time date + localOffset P (time date) * 60000) / 86400000 + 4) mod 7.

Definition days : list Discord.Weekday :=
  [Discord.Sunday; Discord.Monday; Discord.Tuesday; Discord.Wednesday;
   Discord.Thursday; Discord.Friday; Discord.Saturday].

(** [getWeekdayNameFromDate(date)]; [!day] holds of [undefined] and of a
    member of the enumeration whose value is 0. *)
Definition getWeekdayNameFromDate (date : Date) : M Discord.Weekday :=
  match nth_error days (Z.to_nat (getDay date)) with
  | Some day =>
      if weekdayValue P day =? 0
      then throw (InvalidWeekdayIndex (getDay date))
      else ret day
  | None => throw (InvalidWeekdayIndex (getDay date))
  end.

(** [eventHasEmptyValues(eventObject)]: one disjunction, evaluated from the
    left and stopped at the first true operand; the two operands on dates
    compare the stored object with a newly built one. *)
Definition eventHasEmptyValues (eventObject : EventDetails) : M bool :=
  c <- (ret (looseEq (eventName eventObject) "")
        <||> ret (looseEq (description eventObject) "")
        <||> (now <- newDate P ;; ret (sameObject (endTime eventObject) now))
        <||> ret (looseEq (eventLocation eventObject) "")
        <||> ret (JS.eq (frequency eventObject) (int 0))
        <||> ret (looseEq (interval eventObject) "")
        <||> (now <- newDate P ;; ret (sameObject (startTime eventObject) now))
        <||> ret (looseEq (timezone eventObject) "")) ;;
  if c then ret true else ret false.

(** Modelled from the spec: [scheduleHasEmptyValues], which the latest
    revision of [createNewDiscordSchedule] imports from
    [additionalFunctions.ts], is not among the sources.  For the recurring
    mode the specification requires name, description, timezone and location
    to be non-empty, start and end not to be equal to the "now" sentinel,
    the recurrence kind to be non-empty and the recurrence interval to
    differ from 0.  The sentinel is the instant of a date built for the
    comparison, [new Date()], as in [eventHasEmptyValues]; the comparison is
    one of instants, as the specification words it, the start being
    compared before the end. *)
Definition scheduleHasEmptyValues (eventObject : EventDetails) : M bool :=
  c <- (ret (looseEq (eventName eventObject) "")
        <||> ret (looseEq (description eventObject) "")
        <||> ret (looseEq (timezone eventObject) "")
        <||> ret (looseEq (eventLocation eventObject) "")
        <||> (now <- newDate P ;;
              ret (time (startTime eventObject) =? time now))
        <||> (now <- newDate P ;;
              ret (time (endTime eventObject) =? time now))
        <||> ret (looseEq (interval eventObject) "")
        <||> ret (JS.eq (frequency eventObject) (int 0))) ;;
  if c then ret true else ret false.

(** [checkTimeInPast(time)]. *)
Definition checkTimeInPast (time : Date) : M bool :=
  now <- dateNow P ;;
  currentDate <- allocDate now ;;
  if JS.time currentDate <? JS.time time then ret false else ret true.

(** [startTimebBeforeEndTime(startTime, endTime)] (imported as
    [startTimeBeforeEndTime] by the latest callers): [startTime >= endTime]. *)
Definition startTimebBeforeEndTime (startTime endTime : Date) : bool :=
  JS.time endTime <=? JS.time startTime.

(* ================================================================== *)
(** * eventFunctions.ts *)
(* ================================================================== *)

(** [await client.guilds.fetch(guildID)]. *)
Definition guildsFetch (guildID : string) : M unit :=
  if fetchGuild P guildID then ret tt else throw ApiError.

(** [await guild.scheduledEvents.create(options)]. *)
Definition scheduledEventsCreate (options : Discord.EventOptions) : M unit :=
  emit (Create options) ;;;
  if createEvent P options then ret tt else throw ApiError.

(** The [try] statement of [createNewDiscordEvent]. *)
Definition eventTry (discordMessageAttachment : string)
    (guildID : option string) (eventDetails : EventDetails) : M unit :=
  tryCatch
    (match guildID with
     | None => emit (LogError MNoServer)
     | Some g =>
         null_date <- allocDate 0 ;;
         guildsFetch g ;;;
         scheduledEventsCreate
           (Discord.mkOptions (eventName eventDetails)
              (startTime eventDetails) (endTime eventDetails)
              (eventLocation eventDetails) (description eventDetails)
              discordMessageAttachment None) ;;;
         emit (LogInfo (MEventCreated (eventName eventDetails)
                          (startTime eventDetails))) ;;;
         emit (Send (MEventCreated (eventName eventDetails)
                       (startTime eventDetails)))
     end)
    (fun e =>
       emit (LogError (MFailedToCreate e)) ;;;
       emit (Send (MFailedToCreate e))).

(** The body of [createNewDiscordEvent] from the first use of the extracted
    details on. *)
Definition createEventFrom (eventInfo discordMessageAttachment : string)
    (guildID : option string) (eventDetails : EventDetails) : M unit :=
  empty <- eventHasEmptyValues eventDetails ;;
  if empty then
    emit (LogError (MCheckDetails eventInfo)) ;;;
    emit (Send (MCheckDetails eventInfo)) ;;;
    emit (Send MEventFormat)
  else
  (* Check for Start Time in the past *)
  past <- (checkTimeInPast (startTime eventDetails)
           <||> checkTimeInPast (endTime eventDetails)) ;;
  if past then
    emit (LogError MTimeInPast) ;;;
    emit (Send MTimeInPast)
  else
  (* check if end time is after start time *)
  if startTimebBeforeEndTime (startTime eventDetails) (endTime eventDetails)
  then
    emit (LogError MEndBeforeStart) ;;;
    emit (Send MEndBeforeStart)
  else
    eventTry discordMessageAttachment guildID eventDetails.

Definition createNewDiscordEvent (eventInfo discordMessageAttachment : string)
    (guildID : option string) : M unit :=
  emit (LogInfo (MInvokingEvent eventInfo)) ;;;
  eventDetails <- extractEventdetails eventInfo "New Event" ;;
  createEventFrom eventInfo discordMessageAttachment guildID eventDetails.

(** The options of a recurring event. *)
Definition scheduleOptions (discordMessageAttachment : string)
    (eventDetails : EventDetails) (f : Discord.Frequency)
    (byWeekday : list Discord.Weekday) : Discord.EventOptions :=
  Discord.mkOptions (eventName eventDetails)
    (startTime eventDetails) (endTime eventDetails)
    (eventLocation eventDetails) (description eventDetails)
    discordMessageAttachment
    (Some (Discord.mkRule f (frequency eventDetails)
             (time (startTime eventDetails)) byWeekday)).

(** The [switch] on the interval: [Some frequence] when the case leaves the
    switch with [break], [None] when it returns from the function. *)
Definition scheduleSwitch (discordMessageAttachment : string)
    (eventDetails : EventDetails) : M (option string) :=
  if strictEq (interval eventDetails) "daily" then
    emit (LogInfo MTryDaily) ;;;
    scheduledEventsCreate
      (scheduleOptions discordMessageAttachment eventDetails
         Discord.Daily []) ;;;
    ret (Some "day")
  else if strictEq (interval eventDetails) "weekly" then
    emit (LogInfo MTryWeekly) ;;;
    if JS.gt (frequency eventDetails) (int 2)
       || JS.lt (frequency eventDetails) (int 0)
    then
      emit (LogError (MWeeklyInterval (frequency eventDetails))) ;;;
      emit (Send (MWeeklyInterval (frequency eventDetails))) ;;;
      ret None
    else
      weekday <- getWeekdayNameFromDate (startTime eventDetails) ;;
      scheduledEventsCreate
        (scheduleOptions discordMessageAttachment eventDetails
           Discord.Weekly [weekday]) ;;;
      ret (Some "week")
  (* Case currently not working due to Discord API *)
  else if strictEq (interval eventDetails) "monthly" then
    emit (LogError MMonthlyNotWorking) ;;;
    emit (Send MMonthlyNotWorking) ;;;
    ret (Some "")
  (* Case currently not working due to Discord API *)
  else if strictEq (interval eventDetails) "yearly" then
    emit (LogError MMonthlyNotWorking) ;;;
    emit (Send MMonthlyNotWorking) ;;;
    ret (Some "")
  (* if none of the intervals is true *)
  else
    emit (LogError (MCouldNotFetchSchedule (interval eventDetails))) ;;;
    emit (Send (MScheduleNotValid (interval eventDetails))) ;;;
    ret None.

(** The [try] statement of [createNewDiscordSchedule]. *)
Definition scheduleTry (discordMessageAttachment : string)
    (guildID : option string) (eventDetails : EventDetails) : M unit :=
  tryCatch
    (match guildID with
     | None => emit (LogError MNoServer)
     | Some g =>
         guildsFetch g ;;;
         left <- scheduleSwitch discordMessageAttachment eventDetails ;;
         match left with
         | None => ret tt
         | Some frequence =>
             emit (LogInfo (MScheduleCreated (eventName eventDetails)
                              (startTime eventDetails) (interval eventDetails)
                              (frequency eventDetails) frequence)) ;;;
             emit (Send (MScheduleCreated (eventName eventDetails)
                           (startTime eventDetails) (interval eventDetails)
                           (frequency eventDetails) frequence))
         end
     end)
    (fun e =>
       emit (LogError (MFailedToCreate e)) ;;;
       emit (Send (MFailedToCreate e))).

(** The body of [createNewDiscordSchedule] from the first use of the
    extracted details on. *)
Definition createScheduleFrom (eventInfo discordMessageAttachment : string)
    (guildID : option string) (eventDetails : EventDetails) : M unit :=
  (* Check for empty Values *)
  empty <- scheduleHasEmptyValues eventDetails ;;
  if empty then
    emit (LogError (MCheckDetails eventInfo)) ;;;
    emit (Send (MCheckDetails eventInfo)) ;;;
    emit (Send MScheduleFormat)
  else
  (* Check for Start Time in the past *)
  past <- (checkTimeInPast (startTime eventDetails)
           <||> checkTimeInPast (endTime eventDetails)) ;;
  if past then
    emit (LogError MTimeInPast) ;;;
    emit (Send MTimeInPast)
  else
  (* check if end time is after start time *)
  if startTimebBeforeEndTime (startTime eventDetails) (endTime eventDetails)
  then
    emit (LogError MEndBeforeStart) ;;;
    emit (Send MEndBeforeStart)
  else
    scheduleTry discordMessageAttachment guildID eventDetails.

Definition createNewDiscordSchedule
    (eventInfo discordMessageAttachment : string) (guildID : option string)
  : M unit :=
  emit (LogInfo (MInvokingSchedule eventInfo)) ;;;
  eventDetails <- extractEventdetails eventInfo "New Schedule" ;;
  createScheduleFrom eventInfo discordMessageAttachment guildID eventDetails.

End Program.

(** A computation that returns a boolean, writes nothing and does not
    throw. *)
Definition quiet (m : M bool) : Prop :=
  forall w, exists b w1, m w = mkRes (Returned b) w1 [].

(** The three checks [createNewDiscordEvent] and [createNewDiscordSchedule]
    have in common, in the order they are written, before the [try]
    statement [attempt]. *)
Definition threeChecks (P : Platform)
    (hasEmptyValues : EventDetails -> M bool) (format : Message)
    (eventInfo : string) (eventDetails : EventDetails) (attempt : M unit)
  : M unit :=
  empty <- hasEmptyValues eventDetails ;;
  if empty then
    emit (LogError (MCheckDetails eventInfo)) ;;;
    emit (Send (MCheckDetails eventInfo)) ;;;
    emit (Send format)
  else
  past <- (checkTimeInPast P (startTime eventDetails)
           <||> checkTimeInPast P (endTime eventDetails)) ;;
  if past then
    emit (LogError MTimeInPast) ;;;
    emit (Send MTimeInPast)
  else
  if startTimebBeforeEndTime (startTime eventDetails) (endTime eventDetails)
  then
    emit (LogError MEndBeforeStart) ;;;
    emit (Send MEndBeforeStart)
  else attempt.

(* ================================================================== *)
(** * The vocabulary of the specification *)
(* ================================================================== *)

(** The reasons of a rejection. *)
Inductive Reason : Type :=
| IncompleteSpecification
| TimeInPast
| EndBeforeStart
| InvalidWeeklyInterval
| UnsupportedRecurrence
| UnknownRecurrenceKind (token : option string).

Inductive Verdict : Type :=
| Accepted (o : Discord.EventOptions)   (* handed to the event creation *)
| Rejected (r : Reason)
| NoVerdict.

(** The reason a message sent to the reply channel stands for. *)
Definition reasonOf (m : Message) : option Reason :=
  match m with
  | MCheckDetails _ => Some IncompleteSpecification
  | MTimeInPast => Some TimeInPast
  | MEndBeforeStart => Some EndBeforeStart
  | MWeeklyInterval _ => Some InvalidWeeklyInterval
  | MMonthlyNotWorking => Some UnsupportedRecurrence
  | MScheduleNotValid token => Some (UnknownRecurrenceKind token)
  | _ => None
  end.

(** The verdict surfaced by a run: the first rejection sent to the channel
    or the first call of the event creation, whichever comes first. *)
Fixpoint verdictOf (es : list Effect) : Verdict :=
  match es with
  | [] => NoVerdict
  | Create o :: _ => Accepted o
  | Send m :: rest =>
      match reasonOf m with
      | Some r => Rejected r
      | None => verdictOf rest
      end
  | _ :: rest => verdictOf rest
  end.

(** The event specifications handed to the event creation during a run. *)
Fixpoint created (es : list Effect) : list Discord.EventOptions :=
  match es with
  | [] => []
  | Create o :: rest => o :: created rest
  | _ :: rest => created rest
  end.

(** [validate] of the specification, for the recurring and the single
    mode. *)
Definition validateSchedule (P : Platform) (eventInfo attachment : string)
    (guildID : option string) (spec : EventDetails) (w : World) : Verdict :=
  verdictOf (effects (createScheduleFrom P eventInfo attachment guildID spec w)).

Definition validateEvent (P : Platform) (eventInfo attachment : string)
    (guildID : option string) (spec : EventDetails) (w : World) : Verdict :=
  verdictOf (effects (createEventFrom P eventInfo attachment guildID spec w)).

(** [resolveInstant] of the specification: the instant [parseCustomDate]
    computes, without the object it allocates and the line it logs. *)
Definition resolveInstant (P : Platform) (text : string) (zone : option string)
  : option Z :=
  match matchDateTime text with
  | None => None
  | Some (datePart, hourStr, minuteStr) =>
      Luxon.fromFormat P (datePart ++ " " ++ hourStr ++ ":" ++ minuteStr) zone
  end.

(** The EmptySpecification: every text field empty and the interval 0. *)
Definition isEmptySpecification (spec : EventDetails) : Prop :=
  eventName spec = Some "" /\ timezone spec = Some "" /\
  eventLocation spec = Some "" /\ description spec = Some "" /\
  interval spec = Some "" /\ frequency spec = int 0.

(** Some text field is empty or the interval is 0. *)
Definition emptyFields (spec : EventDetails) : bool :=
  looseEq (eventName spec) "" || looseEq (description spec) ""
  || looseEq (timezone spec) "" || looseEq (eventLocation spec) ""
  || looseEq (interval spec) "" || JS.eq (frequency spec) (int 0).

(** The two dates of a specification were allocated before [w]. *)
Definition allocated (spec : EventDetails) (w : World) : Prop :=
  (ref (startTime spec) < nextRef w)%nat /\
  (ref (endTime spec) < nextRef w)%nat.

(** The weekday [getWeekdayNameFromDate] looks up for a date. *)
Definition weekdayOf (P : Platform) (date : Date) : Discord.Weekday :=
  nth (Z.to_nat (getDay P date)) days Discord.Sunday.

(** The interval of a weekly schedule passes the test of the [weekly]
    case. *)
Definition weeklyIntervalPasses (f : number) : bool :=
  negb (JS.gt f (int 2) || JS.lt f (int 0)).

(** The zone [extractEventdetails] reads from the fields of a line. *)
Definition zoneOf (parts : list string) : option string :=
  if looseEq (nth_error parts 3) "" then Some "Europe/Amsterdam"
  else nth_error parts 3.

(** The time value [extractEventdetails] stores for a date text. *)
Definition instantOrEpoch (P : Platform) (text : string)
    (zone : option string) : Z :=
  match resolveInstant P text zone with
  | Some ts => ts
  | None => 0
  end.

(** Lines written to the logger only. *)
Definition isLog (e : Effect) : bool :=
  match e with
  | LogInfo _ | LogError _ => true
  | _ => false
  end.

(** The world in which the [try] statement runs when the completeness
    check, which ended in [w1], and the two later checks have passed: each
    of the two calls of [checkTimeInPast] has read the clock and built a
    date. *)
Definition afterChecks (w1 : World) : World :=
  mkWorld (S (S (reads w1))) (S (S (nextRef w1))).

(** A run of the three checks surfaces the first check that fails, in the
    order completeness, temporal position, ordering; [completeness] is the
    run of the completeness check, [v] the verdict of the whole run and
    [attempt] the verdict of the [try] statement from a world on. *)
Definition surfacesFirstFailure (P : Platform) (spec : EventDetails)
    (completeness : Res bool) (v : Verdict) (attempt : World -> Verdict)
  : Prop :=
  let w1 := world completeness in
  let now1 := clockAt P (reads w1) in
  let now2 := clockAt P (S (reads w1)) in
  (exists b, returned completeness = Some b) /\
  (returned completeness = Some true -> v = Rejected IncompleteSpecification) /\
  (returned completeness = Some false ->
   time (startTime spec) <= now1 \/ time (endTime spec) <= now2 ->
   v = Rejected TimeInPast) /\
  (returned completeness = Some false ->
   now1 < time (startTime spec) -> now2 < time (endTime spec) ->
   time (endTime spec) <= time (startTime spec) ->
   v = Rejected EndBeforeStart) /\
  (returned completeness = Some false ->
   now1 < time (startTime spec) -> now2 < time (endTime spec) ->
   time (startTime spec) < time (endTime spec) ->
   v = attempt (afterChecks w1)).

(** A date of the specification is at the "now" sentinel of the
    completeness check of the recurring mode, which starts in [w]: the
    start is the instant the clock shows at the first reading, or the end
    the instant it shows at the second. *)
Definition atSentinel (P : Platform) (spec : EventDetails) (w : World)
  : bool :=
  (time (startTime spec) =? clockAt P (reads w))
  || (time (endTime spec) =? clockAt P (S (reads w))).

(** A recurring specification that passes every check that does not look
    at the recurrence: its four text fields are not the empty string,
    neither date is at the "now" sentinel, both instants lie after the
    clock as [checkTimeInPast] reads it, the start lies before the end, and
    the server can be fetched. *)
Definition otherwiseValid (P : Platform) (guild : option string)
    (spec : EventDetails) (w : World) : Prop :=
  let w1 := world (scheduleHasEmptyValues P spec w) in
  looseEq (eventName spec) "" = false /\
  looseEq (description spec) "" = false /\
  looseEq (timezone spec) "" = false /\
  looseEq (eventLocation spec) "" = false /\
  atSentinel P spec w = false /\
  clockAt P (reads w1) < time (startTime spec) /\
  clockAt P (S (reads w1)) < time (endTime spec) /\
  time (startTime spec) < time (endTime spec) /\
  exists g, guild = Some g /\ fetchGuild P g = true.

(** Extraction followed by validation, for a line of the recurring mode. *)
Definition scheduleVerdict (P : Platform) (line attachment : string)
    (guild : option string) (w : World) : Verdict :=
  verdictOf (effects (createNewDiscordSchedule P line attachment guild w)).

(** The shape [YYYY-MM-DD HH:MM] in the words of the specification: four,
    two and two digits between hyphens, a space, two and two digits around
    a colon. *)
Definition hasShape (text : string) : Prop :=
  exists y1 y2 y3 y4 m1 m2 d1 d2 h1 h2 n1 n2,
    forallb isDigit [y1; y2; y3; y4; m1; m2; d1; d2; h1; h2; n1; n2] = true /\
    text = string_of_list_ascii
             [y1; y2; y3; y4; "-"%char; m1; m2; "-"%char; d1; d2; " "%char;
              h1; h2; ":"%char; n1; n2].

(** The hour of a date-time text is one of 00 to 23. *)
Definition hourBelow24 (text : string) : bool :=
  match Luxon.parseTokens text with
  | Some (_, _, _, h, _) => h <=? 23
  | None => false
  end.

(** The day number of the first of March of the year [a], from which
    [Luxon.daysFromCivil] counts the days of the year that runs from March
    to February. *)
Definition yearBase (a : Z) : Z :=
  365 * a + a / 4 - a / 100 + a / 400 - 719468.

(* ================================================================== *)
(** * A platform to run the program on *)
(* ================================================================== *)

Module Sample.

Definition isSpace (c : ascii) : bool :=
  let n := nat_of_ascii c in
  (n =? 32)%nat || ((9 <=? n)%nat && (n <=? 13)%nat).

Fixpoint dropSpaces (l : list ascii) : list ascii :=
  match l with
  | c :: rest => if isSpace c then dropSpaces rest else l
  | [] => []
  end.

(** [trim] on a string whose white space is ASCII. *)
Definition trim (s : string) : string :=
  string_of_list_ascii
    (rev (dropSpaces (rev (dropSpaces (list_ascii_of_string s))))).

(** Unary [+] on the strings that are empty, blank or a decimal integer
    with an optional sign, and [NaN] on every other string: this differs
    from JavaScript on fractions, exponents, other radices and [Infinity],
    which the lines evaluated below do not contain. *)
Definition toNumber (s : string) : number :=
  match list_ascii_of_string (trim s) with
  | [] => int 0
  | c :: ds =>
      if Ascii.eqb c "-" then
        if forallb isDigit ds && negb (Nat.eqb (List.length ds) 0)
        then int (- digitsValue ds) else NaN
      else if Ascii.eqb c "+" then
        if forallb isDigit ds && negb (Nat.eqb (List.length ds) 0)
        then int (digitsValue ds) else NaN
      else if forallb isDigit (c :: ds) then int (digitsValue (c :: ds))
      else NaN
  end.

(** Central European Time away from the summer: one hour ahead of UTC. *)
Definition zoneToUTC (zone : string) : option (Z -> Z) :=
  if String.eqb zone "Europe/Berlin" then Some (fun l => l - 3600000)
  else if String.eqb zone "Europe/Amsterdam" then Some (fun l => l - 3600000)
  else if String.eqb zone "UTC" then Some (fun l => l)
  else None.

(** The values of the weekday enumeration in discord-api-types. *)
Definition weekdayValue (d : Discord.Weekday) : Z :=
  match d with
  | Discord.Monday => 0
  | Discord.Tuesday => 1
  | Discord.Wednesday => 2
  | Discord.Thursday => 3
  | Discord.Friday => 4
  | Discord.Saturday => 5
  | Discord.Sunday => 6
  end.

(** 2025-11-02 12:00 UTC. *)
Definition noon : Z := Luxon.localMillis 2025 11 2 12 0.

(** A process in UTC whose clock stays at [noon] for the length of a run
    and whose remote calls succeed. *)
Definition platform : Platform :=
  mkPlatform (fun _ => noon) toNumber trim zoneToUTC (fun l => l)
             (fun _ => 0) weekdayValue (fun _ => true) (fun _ => true).

Definition start : World := mkWorld 0 0.

(** The world after the extraction of a line whose two dates resolve: four
    dates have been allocated. *)
Definition extracted : World := mkWorld 0 4.

(** 2999-01-10 09:00 and 10:00 in Berlin, and 2020-01-10 09:00 there. *)
Definition nine : Z := Luxon.localMillis 2999 1 10 8 0.
Definition ten : Z := Luxon.localMillis 2999 1 10 9 0.
Definition longAgo : Z := Luxon.localMillis 2020 1 10 8 0.

(** The details of a recurring event as the extraction builds them. *)
Definition schedule (name : string) (startT endT : Z) (kind : string)
    (f : number) : EventDetails :=
  mkEventDetails (Some name) (mkDate 1 startT) (mkDate 3 endT)
    (Some "Europe/Berlin") (Some "Zoom") (Some "Weekly team meeting")
    (Some kind) f.

End Sample.

(* ================================================================== *)
(** * mainBot.ts: the handler of [MessageCreate] *)
(* ================================================================== *)

(** [s.split(sep)] for a separator [sep] of the two characters [c1 c2], as
    [split] is for ["; "]. *)
Fixpoint splitOnFrom (c1 c2 : ascii) (cur : list ascii) (s : string)
  : list string :=
  match s with
  | EmptyString => [string_of_list_ascii (rev cur)]
  | String c rest =>
      match rest with
      | String c' rest' =>
          if Ascii.eqb c c1 && Ascii.eqb c' c2
          then string_of_list_ascii (rev cur) :: splitOnFrom c1 c2 [] rest'
          else splitOnFrom c1 c2 (c :: cur) rest
      | EmptyString => splitOnFrom c1 c2 (c :: cur) rest
      end
  end.

Definition splitOn (c1 c2 : ascii) (s : string) : list string :=
  splitOnFrom c1 c2 [] s.

(** The two characters [c1 c2] occur in [s], one after the other. *)
Fixpoint occurs (c1 c2 : ascii) (s : string) : bool :=
  match s with
  | EmptyString => false
  | String a rest =>
      match rest with
      | String b _ => (Ascii.eqb a c1 && Ascii.eqb b c2) || occurs c1 c2 rest
      | EmptyString => false
      end
  end.

(** [s.split("\n")]. *)
Fixpoint splitLinesFrom (cur : list ascii) (s : string) : list string :=
  match s with
  | EmptyString => [string_of_list_ascii (rev cur)]
  | String c rest =>
      if Ascii.eqb c "010"
      then string_of_list_ascii (rev cur) :: splitLinesFrom [] rest
      else splitLinesFrom (c :: cur) rest
  end.

Definition splitLines (s : string) : list string := splitLinesFrom [] s.

(** The regular expression [/!dmb /gi] matches the five characters: the
    letters in either case. *)
Definition botPrefixAt (c0 c1 c2 c3 c4 : ascii) : bool :=
  Ascii.eqb c0 "!"
  && (Ascii.eqb c1 "d" || Ascii.eqb c1 "D")
  && (Ascii.eqb c2 "m" || Ascii.eqb c2 "M")
  && (Ascii.eqb c3 "b" || Ascii.eqb c3 "B")
  && Ascii.eqb c4 " ".

(** [line.replace(/!dmb /gi, "")]: every match, found from the left in one
    pass, is removed. *)
Fixpoint removeBotPrefix (s : string) : string :=
  match s with
  | EmptyString => EmptyString
  | String c0 t0 =>
      match t0 with
      | String c1 (String c2 (String c3 (String c4 rest))) =>
          if botPrefixAt c0 c1 c2 c3 c4 then removeBotPrefix rest
          else String c0 (removeBotPrefix t0)
      | _ => String c0 (removeBotPrefix t0)
      end
  end.

(** The regular expression matches somewhere in [s]. *)
Fixpoint mentionsBotPrefix (s : string) : bool :=
  match s with
  | EmptyString => false
  | String c0 t0 =>
      match t0 with
      | String c1 (String c2 (String c3 (String c4 _))) =>
          botPrefixAt c0 c1 c2 c3 c4 || mentionsBotPrefix t0
      | _ => mentionsBotPrefix t0
      end
  end.

(** What the handler reads of an attachment and of a message. *)
Record Attachment : Type := mkAttachment {
  contentType : option string;
  url : string
}.

Record IncomingMessage : Type := mkIncomingMessage {
  content : string;
  attachments : list Attachment;
  guildId : option string;      (* [message.guild?.id] *)
  channelId : string
}.

(** What the handler does, in order.  The two functions it calls are
    asynchronous and are not awaited: a call is recorded with its
    arguments. *)
Inductive Action : Type :=
| CallNewDiscordEvent (eventInfo : option string) (attachment : string)
                      (guildID : option string) (replyChannel : string)
| CallNewDiscordSchedule (eventInfo : option string) (attachment : string)
                         (guildID : option string) (replyChannel : string)
| React                                   (* [message.react] *)
| InvalidOperation (operation : option string).

(** [att.contentType?.startsWith("image/")]. *)
Definition isImage (att : Attachment) : bool :=
  match contentType att with
  | Some t => String.prefix "image/" t
  | None => false
  end.

(** The URL of the first image among the attachments, or [""]. *)
Definition imageAttachment (atts : list Attachment) : string :=
  match find isImage atts with
  | Some att => url att
  | None => ""
  end.

(** The loop over the lines of a message; the [default] case of the switch
    returns from the handler. *)
Fixpoint handleLines (attachment : string) (guildID : option string)
    (channelSent : string) (lines : list string) : list Action :=
  match lines with
  | [] => []
  | line :: rest =>
      if String.prefix "!dmb " line then
        (* Remove Prefix *)
        let line := removeBotPrefix line in
        (* Split up in Case-Identifyer and Data *)
        let discordMessageParts := splitOn ":" " " line in
        if strictEq (nth_error discordMessageParts 0) "New Event" then
          CallNewDiscordEvent (nth_error discordMessageParts 1) attachment
            guildID channelSent
          :: React :: handleLines attachment guildID channelSent rest
        else if strictEq (nth_error discordMessageParts 0) "New Schedule" then
          CallNewDiscordSchedule (nth_error discordMessageParts 1) attachment
            guildID channelSent
          :: React :: handleLines attachment guildID channelSent rest
        else [InvalidOperation (nth_error discordMessageParts 0)]
      else handleLines attachment guildID channelSent rest
  end.

Definition onMessageCreate (message : IncomingMessage) : list Action :=
  handleLines (imageAttachment (attachments message)) (guildId message)
    (channelId message) (splitLines (content message)).

(** [pre] put in front of the first piece of a list of pieces. *)
Definition prependHead (pre : string) (pieces : list string) : list string :=
  match pieces with
  | p :: ps => (pre ++ p) :: ps
  | [] => []
  end.

(** The operation named by a line of a message, after the prefix. *)
Definition operationOf (line : string) : option string :=
  nth_error (splitOn ":" " " (removeBotPrefix line)) 0.

(** The separator made of two characters. *)
Definition separator (c1 c2 : ascii) : string := String c1 (String c2 "").

(* ================================================================== *)
(** * Running the monad *)
(* ================================================================== *)

Lemma bind_quiet {A B} (m : M A) (f : A -> M B) w a w1 :
  m w = mkRes (Returned a) w1 [] -> bind m f w = f a w1.
Proof.
  intros H. unfold bind. rewrite H. destruct (f a w1); reflexivity.
Qed.

Lemma bind_returned {A B} (m : M A) (f : A -> M B) w a w1 e1 :
  m w = mkRes (Returned a) w1 e1 ->
  bind m f w =
  mkRes (outcome (f a w1)) (world (f a w1)) (e1 ++ effects (f a w1)).
Proof.
  intros H. unfold bind. rewrite H. destruct (f a w1); reflexivity.
Qed.

Lemma orElse_ret (b : bool) (m : M bool) w :
  orElse (ret b) m w = if b then mkRes (Returned true) w [] else m w.
Proof.
  unfold orElse. rewrite (bind_quiet _ _ w b w) by reflexivity.
  destruct b; reflexivity.
Qed.

Section Checks.

Context (P : Platform).

Lemma newDate_run w :
  newDate P w =
  mkRes (Returned (mkDate (nextRef w) (clockAt P (reads w))))
        (mkWorld (S (reads w)) (S (nextRef w))) [].
Proof. reflexivity. Qed.

Lemma checkTimeInPast_run d w :
  checkTimeInPast P d w =
  mkRes (Returned (time d <=? clockAt P (reads w)))
        (mkWorld (S (reads w)) (S (nextRef w))) [].
Proof.
  unfold checkTimeInPast, bind, dateNow, allocDate, ret. cbn.
  destruct (Z.ltb_spec (clockAt P (reads w)) (time d));
    destruct (Z.leb_spec (time d) (clockAt P (reads w)));
    try lia; reflexivity.
Qed.

(** The date operand of a completeness check: a stored date is never the
    object built for the comparison. *)
Lemma fresh_date_differs d w :
  (ref d < nextRef w)%nat ->
  bind (newDate P) (fun now => ret (sameObject d now)) w =
  mkRes (Returned false) (mkWorld (S (reads w)) (S (nextRef w))) [].
Proof.
  intros H. rewrite (bind_quiet _ _ _ _ _ (newDate_run w)).
  unfold ret, sameObject. cbn.
  replace (ref d =? nextRef w)%nat with false; [reflexivity|].
  symmetry. apply Nat.eqb_neq. lia.
Qed.

Lemma date_operand_quiet (f : Date -> bool) :
  quiet (bind (newDate P) (fun now => ret (f now))).
Proof.
  intros w. rewrite (bind_quiet _ _ _ _ _ (newDate_run w)).
  eexists _, _. reflexivity.
Qed.

Lemma ret_quiet b : quiet (ret b).
Proof. intros w. eexists _, _. reflexivity. Qed.

Lemma orElse_quiet a b : quiet a -> quiet b -> quiet (orElse a b).
Proof.
  intros Ha Hb w. destruct (Ha w) as (x & w1 & E).
  unfold orElse. rewrite (bind_quiet _ _ _ _ _ E).
  destruct x; [eexists _, _; reflexivity | apply Hb].
Qed.

Lemma normalise_quiet (m : M bool) :
  quiet m -> quiet (bind m (fun c => if c then ret true else ret false)).
Proof.
  intros H w. destruct (H w) as (x & w1 & E).
  rewrite (bind_quiet _ _ _ _ _ E). destruct x; eexists _, _; reflexivity.
Qed.

Lemma eventHasEmptyValues_quiet ev : quiet (eventHasEmptyValues P ev).
Proof.
  unfold eventHasEmptyValues. apply normalise_quiet.
  repeat (apply orElse_quiet;
          [first [apply ret_quiet | apply date_operand_quiet]|]).
  apply ret_quiet.
Qed.

Lemma scheduleHasEmptyValues_quiet ev : quiet (scheduleHasEmptyValues P ev).
Proof.
  unfold scheduleHasEmptyValues. apply normalise_quiet.
  repeat (apply orElse_quiet;
          [first [apply ret_quiet | apply date_operand_quiet]|]).
  apply ret_quiet.
Qed.

Lemma orElse_date d (m : M bool) w :
  (ref d < nextRef w)%nat ->
  orElse (bind (newDate P) (fun now => ret (sameObject d now))) m w =
  m (mkWorld (S (reads w)) (S (nextRef w))).
Proof.
  intros H. unfold orElse.
  rewrite (bind_quiet _ _ _ _ _ (fresh_date_differs d w H)). reflexivity.
Qed.

(** What [eventHasEmptyValues] computes: the dates play no role. *)
Lemma eventHasEmptyValues_fields ev w :
  allocated ev w ->
  exists w1,
    eventHasEmptyValues P ev w = mkRes (Returned (emptyFields ev)) w1 [].
Proof.
  intros [Hs He]. unfold eventHasEmptyValues, emptyFields.
  assert (exists w1,
    (ret (looseEq (eventName ev) "")
     <||> ret (looseEq (description ev) "")
     <||> (now <- newDate P ;; ret (sameObject (endTime ev) now))
     <||> ret (looseEq (eventLocation ev) "")
     <||> ret (JS.eq (frequency ev) (int 0))
     <||> ret (looseEq (interval ev) "")
     <||> (now <- newDate P ;; ret (sameObject (startTime ev) now))
     <||> ret (looseEq (timezone ev) "")) w =
    mkRes (Returned (looseEq (eventName ev) "" || looseEq (description ev) ""
                     || looseEq (timezone ev) ""
                     || looseEq (eventLocation ev) ""
                     || looseEq (interval ev) ""
                     || JS.eq (frequency ev) (int 0))) w1 []) as (w1 & E).
  { rewrite orElse_ret.
    destruct (looseEq (eventName ev) ""); [eexists; reflexivity|].
    rewrite orElse_ret.
    destruct (looseEq (description ev) ""); [eexists; reflexivity|].
    rewrite orElse_date by exact He. rewrite orElse_ret.
    destruct (looseEq (eventLocation ev) "");
      [eexists; cbn; rewrite orb_true_r; reflexivity|].
    rewrite orElse_ret.
    destruct (JS.eq (frequency ev) (int 0));
      [eexists; cbn; rewrite !orb_true_r; reflexivity|].
    rewrite orElse_ret.
    destruct (looseEq (interval ev) "");
      [eexists; cbn; rewrite !orb_true_r; reflexivity|].
    rewrite orElse_date by (cbn; lia).
    eexists. unfold ret. cbn. rewrite !orb_false_r. reflexivity. }
  rewrite (bind_quiet _ _ _ _ _ E).
  eexists. match goal with |- (if ?b then _ else _) _ = _ => destruct b end;
    reflexivity.
Qed.

(** The date operand of the completeness check of the recurring mode: the
    instant of the stored date against the reading of the clock. *)
Lemma orElse_instant d (m : M bool) w :
  orElse (bind (newDate P) (fun now => ret (time d =? time now))) m w =
  if time d =? clockAt P (reads w)
  then mkRes (Returned true) (mkWorld (S (reads w)) (S (nextRef w))) []
  else m (mkWorld (S (reads w)) (S (nextRef w))).
Proof.
  assert (E : bind (newDate P) (fun now => ret (time d =? time now)) w =
              mkRes (Returned (time d =? clockAt P (reads w)))
                    (mkWorld (S (reads w)) (S (nextRef w))) []).
  { rewrite (bind_quiet _ _ _ _ _ (newDate_run w)). reflexivity. }
  unfold orElse. rewrite (bind_quiet _ _ _ _ _ E).
  destruct (time d =? clockAt P (reads w)); reflexivity.
Qed.

(** What the completeness check of the recurring mode computes: some text
    field is empty, the interval is 0, or a date is at the sentinel.  When
    it reports nothing it has read the clock twice. *)
Lemma scheduleHasEmptyValues_fields ev w :
  exists w1,
    scheduleHasEmptyValues P ev w =
    mkRes (Returned (emptyFields ev || atSentinel P ev w)) w1 [] /\
    (emptyFields ev || atSentinel P ev w = false ->
     w1 = mkWorld (S (S (reads w))) (S (S (nextRef w)))).
Proof.
  unfold scheduleHasEmptyValues, emptyFields, atSentinel.
  assert (exists w1,
    (ret (looseEq (eventName ev) "")
     <||> ret (looseEq (description ev) "")
     <||> ret (looseEq (timezone ev) "")
     <||> ret (looseEq (eventLocation ev) "")
     <||> (now <- newDate P ;; ret (time (startTime ev) =? time now))
     <||> (now <- newDate P ;; ret (time (endTime ev) =? time now))
     <||> ret (looseEq (interval ev) "")
     <||> ret (JS.eq (frequency ev) (int 0))) w =
    mkRes (Returned ((looseEq (eventName ev) "" || looseEq (description ev) ""
                      || looseEq (timezone ev) ""
                      || looseEq (eventLocation ev) ""
                      || looseEq (interval ev) ""
                      || JS.eq (frequency ev) (int 0))
                     || ((time (startTime ev) =? clockAt P (reads w))
                         || (time (endTime ev) =? clockAt P (S (reads w))))))
          w1 [] /\
    ((looseEq (eventName ev) "" || looseEq (description ev) ""
      || looseEq (timezone ev) "" || looseEq (eventLocation ev) ""
      || looseEq (interval ev) "" || JS.eq (frequency ev) (int 0))
     || ((time (startTime ev) =? clockAt P (reads w))
         || (time (endTime ev) =? clockAt P (S (reads w)))) = false ->
     w1 = mkWorld (S (S (reads w))) (S (S (nextRef w))))) as (w1 & E & W).
  { rewrite orElse_ret.
    destruct (looseEq (eventName ev) "");
      [eexists; split; [reflexivity | discriminate]|].
    rewrite orElse_ret.
    destruct (looseEq (description ev) "");
      [eexists; split; [reflexivity | discriminate]|].
    rewrite orElse_ret.
    destruct (looseEq (timezone ev) "");
      [eexists; split; [reflexivity | discriminate]|].
    rewrite orElse_ret.
    destruct (looseEq (eventLocation ev) "");
      [eexists; split; [reflexivity | discriminate]|].
    rewrite orElse_instant. cbn [orb].
    destruct (time (startTime ev) =? clockAt P (reads w)).
    { eexists; split; [rewrite orb_true_r; reflexivity|].
      rewrite orb_true_r. discriminate. }
    rewrite orElse_instant. cbn [orb reads nextRef].
    destruct (time (endTime ev) =? clockAt P (S (reads w))).
    { eexists; split; [rewrite orb_true_r; reflexivity|].
      rewrite orb_true_r. discriminate. }
    rewrite orElse_ret. rewrite orb_false_r.
    destruct (looseEq (interval ev) "");
      [eexists; split; [reflexivity | discriminate]|].
    eexists. split; reflexivity. }
  rewrite (bind_quiet _ _ _ _ _ E).
  exists w1. split; [|exact W].
  match goal with |- (if ?b then _ else _) _ = _ => destruct b end;
    reflexivity.
Qed.

(** The run of the three checks, given what the completeness check
    returned. *)
Lemma threeChecks_run hasEmptyValues format info ev attempt w b w1 :
  hasEmptyValues ev w = mkRes (Returned b) w1 [] ->
  threeChecks P hasEmptyValues format info ev attempt w =
  if b then
    mkRes (Returned tt) w1
      [LogError (MCheckDetails info); Send (MCheckDetails info); Send format]
  else if time (startTime ev) <=? clockAt P (reads w1) then
    mkRes (Returned tt) (mkWorld (S (reads w1)) (S (nextRef w1)))
      [LogError MTimeInPast; Send MTimeInPast]
  else if time (endTime ev) <=? clockAt P (S (reads w1)) then
    mkRes (Returned tt) (mkWorld (S (S (reads w1))) (S (S (nextRef w1))))
      [LogError MTimeInPast; Send MTimeInPast]
  else if time (endTime ev) <=? time (startTime ev) then
    mkRes (Returned tt) (mkWorld (S (S (reads w1))) (S (S (nextRef w1))))
      [LogError MEndBeforeStart; Send MEndBeforeStart]
  else attempt (mkWorld (S (S (reads w1))) (S (S (nextRef w1)))).
Proof.
  intros E. unfold threeChecks. rewrite (bind_quiet _ _ _ _ _ E).
  destruct b; [reflexivity|].
  assert (Hpast :
    (checkTimeInPast P (startTime ev) <||> checkTimeInPast P (endTime ev)) w1 =
    if time (startTime ev) <=? clockAt P (reads w1) then
      mkRes (Returned true) (mkWorld (S (reads w1)) (S (nextRef w1))) []
    else
      mkRes (Returned (time (endTime ev) <=? clockAt P (S (reads w1))))
            (mkWorld (S (S (reads w1))) (S (S (nextRef w1)))) []).
  { unfold orElse.
    rewrite (bind_quiet _ _ _ _ _ (checkTimeInPast_run (startTime ev) w1)).
    destruct (time (startTime ev) <=? clockAt P (reads w1)); [reflexivity|].
    rewrite checkTimeInPast_run. reflexivity. }
  destruct (time (startTime ev) <=? clockAt P (reads w1)).
  - rewrite (bind_quiet _ _ _ _ _ Hpast). reflexivity.
  - rewrite (bind_quiet _ _ _ _ _ Hpast).
    destruct (time (endTime ev) <=? clockAt P (S (reads w1))); [reflexivity|].
    unfold startTimebBeforeEndTime.
    destruct (time (endTime ev) <=? time (startTime ev)); reflexivity.
Qed.

Lemma createScheduleFrom_checks info att guild ev :
  createScheduleFrom P info att guild ev =
  threeChecks P (scheduleHasEmptyValues P) MScheduleFormat info ev
    (scheduleTry P att guild ev).
Proof. reflexivity. Qed.

Lemma createEventFrom_checks info att guild ev :
  createEventFrom P info att guild ev =
  threeChecks P (eventHasEmptyValues P) MEventFormat info ev
    (eventTry P att guild ev).
Proof. reflexivity. Qed.

End Checks.

(* ================================================================== *)
(** * The [try] statement of [createNewDiscordSchedule] *)
(* ================================================================== *)

Section Recurrence.

Context (P : Platform).

Lemma getDay_range d : 0 <= getDay P d < 7.
Proof. unfold getDay. apply Z.mod_pos_bound. lia. Qed.

Lemma getWeekdayNameFromDate_run d w :
  getWeekdayNameFromDate P d w =
  if weekdayValue P (weekdayOf P d) =? 0
  then mkRes (Thrown (InvalidWeekdayIndex (getDay P d))) w []
  else mkRes (Returned (weekdayOf P d)) w [].
Proof.
  unfold getWeekdayNameFromDate, weekdayOf.
  pose proof (getDay_range d) as R.
  rewrite (nth_error_nth' days Discord.Sunday)
    by (change (List.length days) with 7%nat; lia).
  destruct (weekdayValue P _ =? 0); reflexivity.
Qed.

Variables (att : string) (ev : EventDetails) (g : string) (w : World).
Hypothesis fetched : fetchGuild P g = true.

Lemma scheduleTry_daily :
  interval ev = Some "daily" ->
  exists rest,
    effects (scheduleTry P att (Some g) ev w) =
    LogInfo MTryDaily ::
    Create (scheduleOptions att ev Discord.Daily []) :: rest.
Proof.
  intros H.
  unfold scheduleTry, tryCatch, bind, guildsFetch, scheduleSwitch,
    scheduledEventsCreate, bind.
  rewrite fetched, H. cbn.
  destruct (createEvent P _); cbn; eexists; reflexivity.
Qed.

Lemma scheduleTry_weekly_rejected :
  interval ev = Some "weekly" ->
  weeklyIntervalPasses (frequency ev) = false ->
  effects (scheduleTry P att (Some g) ev w) =
  [LogInfo MTryWeekly; LogError (MWeeklyInterval (frequency ev));
   Send (MWeeklyInterval (frequency ev))].
Proof.
  intros H Hf. apply negb_false_iff in Hf.
  unfold scheduleTry, tryCatch, bind, guildsFetch, scheduleSwitch.
  rewrite fetched, H, Hf. reflexivity.
Qed.

Lemma scheduleTry_weekly_accepted :
  interval ev = Some "weekly" ->
  weeklyIntervalPasses (frequency ev) = true ->
  weekdayValue P (weekdayOf P (startTime ev)) <> 0 ->
  exists rest,
    effects (scheduleTry P att (Some g) ev w) =
    LogInfo MTryWeekly ::
    Create (scheduleOptions att ev Discord.Weekly
              [weekdayOf P (startTime ev)]) :: rest.
Proof.
  intros H Hf Hd. apply negb_true_iff in Hf. apply Z.eqb_neq in Hd.
  unfold scheduleTry, tryCatch, bind, guildsFetch, scheduleSwitch,
    scheduledEventsCreate, bind.
  rewrite fetched, H, Hf. cbn -[getWeekdayNameFromDate].
  rewrite getWeekdayNameFromDate_run, Hd. cbn.
  destruct (createEvent P _); cbn; eexists; reflexivity.
Qed.

Lemma scheduleTry_unsupported :
  interval ev = Some "monthly" \/ interval ev = Some "yearly" ->
  exists fin,
    effects (scheduleTry P att (Some g) ev w) =
    [LogError MMonthlyNotWorking; Send MMonthlyNotWorking;
     LogInfo fin; Send fin].
Proof.
  intros [H | H];
    unfold scheduleTry, tryCatch, bind, guildsFetch, scheduleSwitch;
    rewrite fetched, H; cbn; eexists; reflexivity.
Qed.

Lemma scheduleTry_unknown :
  strictEq (interval ev) "daily" = false ->
  strictEq (interval ev) "weekly" = false ->
  strictEq (interval ev) "monthly" = false ->
  strictEq (interval ev) "yearly" = false ->
  effects (scheduleTry P att (Some g) ev w) =
  [LogError (MCouldNotFetchSchedule (interval ev));
   Send (MScheduleNotValid (interval ev))].
Proof.
  intros H1 H2 H3 H4.
  unfold scheduleTry, tryCatch, bind, guildsFetch, scheduleSwitch.
  rewrite fetched, H1, H2, H3, H4. reflexivity.
Qed.

End Recurrence.

(** Nothing is handed to the event creation for a monthly or a yearly
    schedule, whatever the server. *)
Lemma scheduleTry_unsupported_creates_nothing P att guild ev w :
  interval ev = Some "monthly" \/ interval ev = Some "yearly" ->
  created (effects (scheduleTry P att guild ev w)) = [].
Proof.
  intros H. destruct guild as [g|]; [|reflexivity].
  destruct (fetchGuild P g) eqn:F.
  - destruct (scheduleTry_unsupported P att ev g w F H) as (fin & E).
    rewrite E. reflexivity.
  - unfold scheduleTry, tryCatch, bind, guildsFetch. rewrite F. reflexivity.
Qed.

(* ================================================================== *)
(** * Extraction *)
(* ================================================================== *)

Lemma verdictOf_logs es rest :
  forallb isLog es = true -> verdictOf (es ++ rest) = verdictOf rest.
Proof.
  induction es as [|e es IH]; [reflexivity|].
  cbn [forallb]. intros H. apply andb_prop in H as [He Hes].
  destruct e; try discriminate; cbn; auto.
Qed.

Section Extraction.

Context (P : Platform).

(** [parseCustomDate] on a string: the value of [resolveInstant] in a new
    object, or [null] and a line in the log. *)
Lemma parseCustomDate_run text zone w :
  parseCustomDate P (Some text) zone w =
  match resolveInstant P text zone with
  | Some ts =>
      mkRes (Returned (Some (mkDate (nextRef w) ts)))
            (mkWorld (reads w) (S (nextRef w))) []
  | None =>
      mkRes (Returned None) w
            [LogError (match matchDateTime text with
                       | None => MInvalidDateFormat text
                       | Some _ => MInvalidTimeOrTimezone
                       end)]
  end.
Proof.
  unfold parseCustomDate, resolveInstant.
  destruct (matchDateTime text) as [[[datePart hourStr] minuteStr]|];
    [|reflexivity].
  destruct (Luxon.fromFormat P _ zone); reflexivity.
Qed.

(** The complete run of [extractEventdetails] on a line of at least three
    fields. *)
Lemma extractEventdetails_run line mode w p0 p1 p2 more :
  split line = p0 :: p1 :: p2 :: more ->
  let parts := p0 :: p1 :: p2 :: more in
  exists dS dE w1 es,
    extractEventdetails P line mode w =
    (if String.eqb mode "New Event" then
       mkRes (Returned (mkEventDetails (Some p0) dS dE (zoneOf parts)
                          (nth_error parts 4) (nth_error parts 5)
                          (Some "") (int 0))) w1 es
     else if String.eqb mode "New Schedule" then
       mkRes (Returned (mkEventDetails (Some p0) dS dE (zoneOf parts)
                          (nth_error parts 4) (nth_error parts 5)
                          (nth_error parts 6)
                          (unaryPlus P (option_map (trim P)
                                          (nth_error parts 7))))) w1 es
     else
       mkRes (Returned (mkEventDetails (Some "")
                          (mkDate (nextRef w1) (clockAt P (reads w1)))
                          (mkDate (S (nextRef w1)) (clockAt P (S (reads w1))))
                          (Some "") (Some "") (Some "") (Some "") (int 0)))
             (mkWorld (S (S (reads w1))) (S (S (nextRef w1)))) es)
    /\ time dS = instantOrEpoch P p1 (zoneOf parts)
    /\ time dE = instantOrEpoch P p2 (zoneOf parts)
    /\ (ref dS < nextRef w1)%nat /\ (ref dE < nextRef w1)%nat
    /\ forallb isLog es = true.
Proof.
  intros Hsplit parts.
  unfold extractEventdetails. rewrite Hsplit.
  fold parts. change (nth_error parts 0) with (Some p0).
  change (nth_error parts 1) with (Some p1).
  change (nth_error parts 2) with (Some p2).
  fold (zoneOf parts). generalize (zoneOf parts) as zone. intros zone.
  unfold bind. rewrite parseCustomDate_run. unfold instantOrEpoch.
  destruct (resolveInstant P p1 zone) as [t1|]; cbn -[parseCustomDate];
    rewrite parseCustomDate_run;
    destruct (resolveInstant P p2 zone) as [t2|]; cbn.
  - exists (mkDate (S (nextRef w)) t1), (mkDate (S (S (S (nextRef w)))) t2).
    destruct (String.eqb mode "New Event");
      [|destruct (String.eqb mode "New Schedule")];
      do 2 eexists; (split; [reflexivity|]); cbn; repeat split; lia.
  - exists (mkDate (S (nextRef w)) t1), (mkDate (S (S (nextRef w))) 0).
    destruct (String.eqb mode "New Event");
      [|destruct (String.eqb mode "New Schedule")];
      do 2 eexists; (split; [reflexivity|]); cbn; repeat split; lia.
  - exists (mkDate (nextRef w) 0), (mkDate (S (S (nextRef w))) t2).
    destruct (String.eqb mode "New Event");
      [|destruct (String.eqb mode "New Schedule")];
      do 2 eexists; (split; [reflexivity|]); cbn; repeat split; lia.
  - exists (mkDate (nextRef w) 0), (mkDate (S (nextRef w)) 0).
    destruct (String.eqb mode "New Event");
      [|destruct (String.eqb mode "New Schedule")];
      do 2 eexists; (split; [reflexivity|]); cbn; repeat split; lia.
Qed.

End Extraction.

(* ================================================================== *)
(** * The order of the checks *)
(* ================================================================== *)

Section Order.

Context (P : Platform).

Lemma threeChecks_effects hasEmptyValues format info ev attempt w b w1 :
  hasEmptyValues ev w = mkRes (Returned b) w1 [] ->
  effects (threeChecks P hasEmptyValues format info ev attempt w) =
  if b then
    [LogError (MCheckDetails info); Send (MCheckDetails info); Send format]
  else if (time (startTime ev) <=? clockAt P (reads w1))
          || (time (endTime ev) <=? clockAt P (S (reads w1))) then
    [LogError MTimeInPast; Send MTimeInPast]
  else if time (endTime ev) <=? time (startTime ev) then
    [LogError MEndBeforeStart; Send MEndBeforeStart]
  else effects (attempt (afterChecks w1)).
Proof.
  intros E. rewrite (threeChecks_run P _ _ _ _ _ _ _ _ E).
  destruct b; [reflexivity|].
  destruct (time (startTime ev) <=? clockAt P (reads w1)); [reflexivity|].
  destruct (time (endTime ev) <=? clockAt P (S (reads w1))); [reflexivity|].
  destruct (time (endTime ev) <=? time (startTime ev)); reflexivity.
Qed.

Lemma threeChecks_first_failure hasEmptyValues format info ev attempt w :
  quiet (hasEmptyValues ev) ->
  surfacesFirstFailure P ev (hasEmptyValues ev w)
    (verdictOf (effects (threeChecks P hasEmptyValues format info ev attempt w)))
    (fun w' => verdictOf (effects (attempt w'))).
Proof.
  intros Q. destruct (Q w) as (b & w1 & E).
  rewrite (threeChecks_effects _ _ _ _ _ _ _ _ E).
  unfold surfacesFirstFailure, returned. rewrite E. cbn [outcome world].
  split; [eexists; reflexivity|].
  split; [|split; [|split]]; intros Hb; inversion Hb; subst b.
  - reflexivity.
  - intros H.
    replace ((time (startTime ev) <=? clockAt P (reads w1))
             || (time (endTime ev) <=? clockAt P (S (reads w1)))) with true;
      [reflexivity|].
    symmetry. apply orb_true_iff.
    destruct H; [left | right]; apply Z.leb_le; assumption.
  - intros H1 H2 H3.
    apply Z.leb_gt in H1, H2. rewrite H1, H2. cbn [orb].
    apply Z.leb_le in H3. rewrite H3. reflexivity.
  - intros H1 H2 H3.
    apply Z.leb_gt in H1, H2, H3. rewrite H1, H2, H3. reflexivity.
Qed.

(** An accepted run passed the three checks. *)
Lemma threeChecks_accepted hasEmptyValues format info ev attempt w o :
  quiet (hasEmptyValues ev) ->
  verdictOf (effects (threeChecks P hasEmptyValues format info ev attempt w))
  = Accepted o ->
  let w1 := world (hasEmptyValues ev w) in
  returned (hasEmptyValues ev w) = Some false /\
  clockAt P (reads w1) < time (startTime ev) /\
  clockAt P (S (reads w1)) < time (endTime ev) /\
  time (startTime ev) < time (endTime ev) /\
  verdictOf (effects (attempt (afterChecks w1))) = Accepted o.
Proof.
  intros Q. destruct (Q w) as (b & w1 & E).
  rewrite (threeChecks_effects _ _ _ _ _ _ _ _ E).
  unfold returned. rewrite E. cbn [outcome world].
  destruct b; [discriminate|].
  destruct (Z.leb_spec (time (startTime ev)) (clockAt P (reads w1)));
    [discriminate|].
  destruct (Z.leb_spec (time (endTime ev)) (clockAt P (S (reads w1))));
    [discriminate|].
  cbn [orb].
  destruct (Z.leb_spec (time (endTime ev)) (time (startTime ev)));
    [discriminate|].
  intros Hv. repeat split; assumption.
Qed.

End Order.

(* ================================================================== *)
(** * The claims on the order of the checks and on the two instants *)
(* ================================================================== *)

Lemma schedule_first_failure P info att guild ev w :
  surfacesFirstFailure P ev (scheduleHasEmptyValues P ev w)
    (validateSchedule P info att guild ev w)
    (fun w' => verdictOf (effects (scheduleTry P att guild ev w'))).
Proof.
  unfold validateSchedule. rewrite createScheduleFrom_checks.
  apply threeChecks_first_failure, scheduleHasEmptyValues_quiet.
Qed.

Lemma event_first_failure P info att guild ev w :
  surfacesFirstFailure P ev (eventHasEmptyValues P ev w)
    (validateEvent P info att guild ev w)
    (fun w' => verdictOf (effects (eventTry P att guild ev w'))).
Proof.
  unfold validateEvent. rewrite createEventFrom_checks.
  apply threeChecks_first_failure, eventHasEmptyValues_quiet.
Qed.

(** The reasons surfaced by the resolution of the recurrence. *)
Lemma recurrence_reasons P att ev g w :
  fetchGuild P g = true ->
  let v := verdictOf (effects (scheduleTry P att (Some g) ev w)) in
  (interval ev = Some "weekly" ->
   weeklyIntervalPasses (frequency ev) = false ->
   v = Rejected InvalidWeeklyInterval) /\
  (interval ev = Some "monthly" \/ interval ev = Some "yearly" ->
   v = Rejected UnsupportedRecurrence) /\
  (strictEq (interval ev) "daily" = false ->
   strictEq (interval ev) "weekly" = false ->
   strictEq (interval ev) "monthly" = false ->
   strictEq (interval ev) "yearly" = false ->
   v = Rejected (UnknownRecurrenceKind (interval ev))).
Proof.
  intros F v. subst v. split; [|split].
  - intros H Hf.
    rewrite (scheduleTry_weekly_rejected P att ev g w F H Hf). reflexivity.
  - intros H.
    destruct (scheduleTry_unsupported P att ev g w F H) as (fin & E).
    rewrite E. reflexivity.
  - intros H1 H2 H3 H4.
    rewrite (scheduleTry_unknown P att ev g w F H1 H2 H3 H4). reflexivity.
Qed.

(** C7: Validation runs the completeness check, then the check of the
    temporal position, then the check of the order of start and end, then
    the resolution of the recurrence (the [try] statement), and the reason
    it surfaces is the one of the first check that fails in this order;
    this holds of the recurring and of the single mode.  With a server that
    can be fetched, the resolution of the recurrence surfaces
    [InvalidWeeklyInterval], [UnsupportedRecurrence] or
    [UnknownRecurrenceKind]. *)
Theorem checks_run_in_order P info att guild ev w :
  surfacesFirstFailure P ev (scheduleHasEmptyValues P ev w)
    (validateSchedule P info att guild ev w)
    (fun w' => verdictOf (effects (scheduleTry P att guild ev w'))) /\
  surfacesFirstFailure P ev (eventHasEmptyValues P ev w)
    (validateEvent P info att guild ev w)
    (fun w' => verdictOf (effects (eventTry P att guild ev w'))) /\
  (forall g w', fetchGuild P g = true ->
     let v := verdictOf (effects (scheduleTry P att (Some g) ev w')) in
     (interval ev = Some "weekly" ->
      weeklyIntervalPasses (frequency ev) = false ->
      v = Rejected InvalidWeeklyInterval) /\
     (interval ev = Some "monthly" \/ interval ev = Some "yearly" ->
      v = Rejected UnsupportedRecurrence) /\
     (strictEq (interval ev) "daily" = false ->
      strictEq (interval ev) "weekly" = false ->
      strictEq (interval ev) "monthly" = false ->
      strictEq (interval ev) "yearly" = false ->
      v = Rejected (UnknownRecurrenceKind (interval ev)))).
Proof.
  split; [apply schedule_first_failure|].
  split; [apply event_first_failure|].
  intros g w' F. apply recurrence_reasons, F.
Qed.

(** A recurring event without a name, whose start lies in the past, whose
    end precedes its start and whose recurrence kind is unknown fails the
    four checks; the reason surfaced is the one of the first. *)
Lemma checks_run_in_order_witness :
  validateSchedule Sample.platform "info" "" (Some "guild")
    (Sample.schedule "" Sample.longAgo 0 "hourly" (int 1)) Sample.extracted
  = Rejected IncompleteSpecification.
Proof.
  exact (proj1 (proj2 (proj1
    (checks_run_in_order Sample.platform "info" "" (Some "guild")
       (Sample.schedule "" Sample.longAgo 0 "hourly" (int 1))
       Sample.extracted))) eq_refl).
Defined.

Lemma verdictOf_accepted_created es o :
  verdictOf es = Accepted o -> created es <> [].
Proof.
  induction es as [|e es IH]; [discriminate|].
  destruct e; cbn; try assumption; try discriminate.
  destruct (reasonOf m); [discriminate | assumption].
Qed.

(** A run of the three checks that ends in one of them hands nothing to
    the event creation. *)
Lemma threeChecks_stopped P hasEmptyValues format info ev attempt w :
  quiet (hasEmptyValues ev) ->
  let w1 := world (hasEmptyValues ev w) in
  returned (hasEmptyValues ev w) = Some true \/
  time (startTime ev) <= clockAt P (reads w1) \/
  time (endTime ev) <= clockAt P (S (reads w1)) \/
  time (endTime ev) <= time (startTime ev) ->
  created (effects (threeChecks P hasEmptyValues format info ev attempt w))
  = [].
Proof.
  intros Q. destruct (Q w) as (b & w1 & E).
  rewrite (threeChecks_effects P _ _ _ _ _ _ _ _ E).
  unfold returned. rewrite E. cbn [outcome world].
  destruct b; [reflexivity|].
  destruct (Z.leb_spec (time (startTime ev)) (clockAt P (reads w1)));
    [reflexivity|].
  destruct (Z.leb_spec (time (endTime ev)) (clockAt P (S (reads w1))));
    [reflexivity|].
  cbn [orb].
  destruct (Z.leb_spec (time (endTime ev)) (time (startTime ev)));
    [reflexivity|].
  intros [Hb | [Hb | [Hb | Hb]]]; [discriminate | lia | lia | lia].
Qed.

(** C5 (amended): In an accepted recurring specification the start instant
    lies strictly before the end instant.  A recurring specification whose
    start is equal to or later than its end is never accepted and nothing
    is handed to the event creation; it is rejected with [EndBeforeStart]
    when it passes the completeness check and both instants lie after the
    clock, and otherwise with the reason of the first of these two checks
    that fails. *)
Theorem accepted_start_before_end P info att guild ev w :
  let completeness := scheduleHasEmptyValues P ev w in
  let now1 := clockAt P (reads (world completeness)) in
  let now2 := clockAt P (S (reads (world completeness))) in
  let v := validateSchedule P info att guild ev w in
  (forall o, v = Accepted o -> time (startTime ev) < time (endTime ev)) /\
  (time (endTime ev) <= time (startTime ev) ->
   created (effects (createScheduleFrom P info att guild ev w)) = [] /\
   (forall o, v <> Accepted o) /\
   (exists b, returned completeness = Some b) /\
   (returned completeness = Some true ->
    v = Rejected IncompleteSpecification) /\
   (returned completeness = Some false ->
    time (startTime ev) <= now1 \/ time (endTime ev) <= now2 ->
    v = Rejected TimeInPast) /\
   (returned completeness = Some false ->
    now1 < time (startTime ev) -> now2 < time (endTime ev) ->
    v = Rejected EndBeforeStart)).
Proof.
  cbv zeta.
  destruct (schedule_first_failure P info att guild ev w)
    as (B & I & T & O & _).
  split.
  - intros o H.
    unfold validateSchedule in H. rewrite createScheduleFrom_checks in H.
    apply (threeChecks_accepted P) in H;
      [tauto | apply scheduleHasEmptyValues_quiet].
  - intros Hle.
    assert (N : created (effects (createScheduleFrom P info att guild ev w))
                = []).
    { rewrite createScheduleFrom_checks.
      apply threeChecks_stopped; [apply scheduleHasEmptyValues_quiet|].
      right. right. right. exact Hle. }
    split; [exact N|].
    split; [intros o H; apply verdictOf_accepted_created in H; contradiction|].
    split; [exact B|]. split; [exact I|]. split; [exact T|].
    intros C T1 T2. apply (O C T1 T2 Hle).
Qed.

(** The line of scenario C with a recurrence: an end one hour before the
    start, both far in the future. *)
Lemma accepted_start_before_end_witness :
  validateSchedule Sample.platform "info" "" (Some "guild")
    (Sample.schedule "X" Sample.ten Sample.nine "daily" (int 1))
    Sample.extracted
  = Rejected EndBeforeStart.
Proof.
  refine (proj2 (proj2 (proj2 (proj2 (proj2 (proj2
    (accepted_start_before_end Sample.platform "info" "" (Some "guild")
       (Sample.schedule "X" Sample.ten Sample.nine "daily" (int 1))
       Sample.extracted) _))))) _ _ _); vm_compute; congruence.
Defined.

(** C5 (as stated) fails when an earlier check fails: a recurring line whose
    end precedes its start, both in 2020, is rejected with [TimeInPast]; and
    the line of scenario C, in the single mode, is rejected with
    [IncompleteSpecification]. *)
Lemma end_before_start_counterexample :
  let line :=
    "X; 2020-01-10 10:00; 2020-01-10 09:00; Europe/Berlin; Y; Z; daily; 1" in
  let scenarioC := "X; 2999-01-10 10:00; 2999-01-10 09:00; Europe/Berlin; Y; Z" in
  (exists spec,
     returned (extractEventdetails Sample.platform line "New Schedule"
                 Sample.start) = Some spec /\
     time (endTime spec) <= time (startTime spec)) /\
  scheduleVerdict Sample.platform line "" (Some "guild") Sample.start
  = Rejected TimeInPast /\
  scheduleVerdict Sample.platform line "" (Some "guild") Sample.start
  <> Rejected EndBeforeStart /\
  verdictOf (effects (createNewDiscordEvent Sample.platform scenarioC ""
                        (Some "guild") Sample.start))
  = Rejected IncompleteSpecification.
Proof.
  cbv zeta. split.
  - eexists. split; [vm_compute; reflexivity|]. vm_compute. discriminate.
  - split; [vm_compute; reflexivity|].
    split; [vm_compute; discriminate | vm_compute; reflexivity].
Qed.

(** C6 (amended): In an accepted recurring specification the start and the
    end instant are strictly later than the clock as [checkTimeInPast]
    reads it for each of them.  A recurring specification with an instant
    equal to or earlier than that reading is never accepted and nothing is
    handed to the event creation; it is rejected with [TimeInPast] when it
    passes the completeness check, which runs first, and with
    [IncompleteSpecification] when it does not. *)
Theorem accepted_instants_in_future P info att guild ev w :
  let completeness := scheduleHasEmptyValues P ev w in
  let now1 := clockAt P (reads (world completeness)) in
  let now2 := clockAt P (S (reads (world completeness))) in
  let v := validateSchedule P info att guild ev w in
  (forall o, v = Accepted o ->
     now1 < time (startTime ev) /\ now2 < time (endTime ev)) /\
  (time (startTime ev) <= now1 \/ time (endTime ev) <= now2 ->
   created (effects (createScheduleFrom P info att guild ev w)) = [] /\
   (forall o, v <> Accepted o) /\
   (exists b, returned completeness = Some b) /\
   (returned completeness = Some true ->
    v = Rejected IncompleteSpecification) /\
   (returned completeness = Some false -> v = Rejected TimeInPast)).
Proof.
  cbv zeta.
  destruct (schedule_first_failure P info att guild ev w)
    as (B & I & T & _).
  split.
  - intros o H.
    unfold validateSchedule in H. rewrite createScheduleFrom_checks in H.
    apply (threeChecks_accepted P) in H;
      [cbn zeta in *; tauto | apply scheduleHasEmptyValues_quiet].
  - intros Hpast.
    assert (N : created (effects (createScheduleFrom P info att guild ev w))
                = []).
    { rewrite createScheduleFrom_checks.
      apply threeChecks_stopped; [apply scheduleHasEmptyValues_quiet|].
      right. tauto. }
    split; [exact N|].
    split; [intros o H; apply verdictOf_accepted_created in H; contradiction|].
    split; [exact B|]. split; [exact I|].
    intros C. apply (T C Hpast).
Qed.

(** An event that ended in 2020, checked in 2025. *)
Lemma accepted_instants_in_future_witness :
  validateSchedule Sample.platform "info" "" (Some "guild")
    (Sample.schedule "X" Sample.longAgo (Sample.longAgo + 1800000)
       "daily" (int 1))
    Sample.extracted
  = Rejected TimeInPast.
Proof.
  refine (proj2 (proj2 (proj2 (proj2 (proj2
    (accepted_instants_in_future Sample.platform "info" "" (Some "guild")
       (Sample.schedule "X" Sample.longAgo (Sample.longAgo + 1800000)
          "daily" (int 1))
       Sample.extracted) _)))) _);
    [left; vm_compute; congruence | reflexivity].
Defined.

(** C6 (as stated) fails when the completeness check fails: a recurring
    line without a name whose dates lie in 2020 is rejected with
    [IncompleteSpecification]; so is, in the single mode, a line from 2020
    whose fields are all filled in. *)
Lemma instant_in_past_counterexample :
  let line :=
    "; 2020-01-10 09:00; 2020-01-10 10:00; Europe/Berlin; Y; Z; daily; 1" in
  let single := "X; 2020-01-10 09:00; 2020-01-10 10:00; Europe/Berlin; Y; Z" in
  (exists spec,
     returned (extractEventdetails Sample.platform line "New Schedule"
                 Sample.start) = Some spec /\
     time (startTime spec) <= clockAt Sample.platform 0) /\
  scheduleVerdict Sample.platform line "" (Some "guild") Sample.start
  = Rejected IncompleteSpecification /\
  scheduleVerdict Sample.platform line "" (Some "guild") Sample.start
  <> Rejected TimeInPast /\
  verdictOf (effects (createNewDiscordEvent Sample.platform single ""
                        (Some "guild") Sample.start))
  = Rejected IncompleteSpecification.
Proof.
  cbv zeta. split.
  - eexists. split; [vm_compute; reflexivity|]. vm_compute. discriminate.
  - split; [vm_compute; reflexivity|].
    split; [vm_compute; discriminate | vm_compute; reflexivity].
Qed.

(* ================================================================== *)
(** * The resolution of the recurrence *)
(* ================================================================== *)

Lemma gt_int n m : JS.gt (int n) (int m) = (m <? n).
Proof.
  unfold JS.gt, JS.lt, int, Qle_bool. cbn. rewrite !Z.mul_1_r.
  destruct (Z.leb_spec n m), (Z.ltb_spec m n); try lia; reflexivity.
Qed.

Lemma lt_int n m : JS.lt (int n) (int m) = (n <? m).
Proof.
  unfold JS.lt, int, Qle_bool. cbn. rewrite !Z.mul_1_r.
  destruct (Z.leb_spec m n), (Z.ltb_spec n m); try lia; reflexivity.
Qed.

Lemma eq_int n m : JS.eq (int n) (int m) = (n =? m).
Proof. unfold JS.eq, int, Qeq_bool. cbn. rewrite !Z.mul_1_r. reflexivity. Qed.

Lemma otherwiseValid_completeness P guild ev w :
  otherwiseValid P guild ev w ->
  returned (scheduleHasEmptyValues P ev w) =
  Some (looseEq (interval ev) "" || JS.eq (frequency ev) (int 0)).
Proof.
  intros (N & D & T & L & Sn & _).
  destruct (scheduleHasEmptyValues_fields P ev w) as (w1 & E & _).
  unfold returned. rewrite E. cbn [outcome].
  unfold emptyFields. rewrite N, D, T, L, Sn. cbn [orb].
  rewrite orb_false_r. reflexivity.
Qed.

(** C1 (amended): For an otherwise valid weekly specification whose
    interval is the integer [n]: the intervals 1 and 2 are accepted, with
    the weekday of the start in the rule, when the lookup of that weekday
    succeeds; an interval greater than 2 or less than 0 is rejected with
    [InvalidWeeklyInterval]; the interval 0 is rejected by the completeness
    check, with [IncompleteSpecification]. *)
Theorem weekly_interval_bound P info att guild ev w n :
  otherwiseValid P guild ev w ->
  interval ev = Some "weekly" ->
  frequency ev = int n ->
  (n = 1 \/ n = 2 ->
   weekdayValue P (weekdayOf P (startTime ev)) <> 0 ->
   validateSchedule P info att guild ev w =
   Accepted (scheduleOptions att ev Discord.Weekly
               [weekdayOf P (startTime ev)])) /\
  (2 < n \/ n < 0 ->
   validateSchedule P info att guild ev w = Rejected InvalidWeeklyInterval) /\
  (n = 0 ->
   validateSchedule P info att guild ev w = Rejected IncompleteSpecification).
Proof.
  intros V K F.
  pose proof (otherwiseValid_completeness P guild ev w V) as C.
  rewrite K, F, eq_int in C. cbn [looseEq String.eqb orb] in C.
  destruct V as (_ & _ & _ & _ & _ & T1 & T2 & O & g & -> & G).
  destruct (schedule_first_failure P info att (Some g) ev w)
    as (_ & I & _ & _ & A).
  pose proof (fun w' => recurrence_reasons P att ev g w' G) as R.
  cbn zeta in A, R.
  split; [|split].
  - intros Hn Hd.
    replace (n =? 0) with false in C by (symmetry; apply Z.eqb_neq; lia).
    rewrite (A C T1 T2 O).
    destruct (scheduleTry_weekly_accepted P att ev g
                (afterChecks (world (scheduleHasEmptyValues P ev w))) G K)
      as (rest & E); [|exact Hd|rewrite E; reflexivity].
    unfold weeklyIntervalPasses. rewrite F, gt_int, lt_int.
    destruct (Z.ltb_spec 2 n), (Z.ltb_spec n 0); try lia; reflexivity.
  - intros Hn.
    replace (n =? 0) with false in C by (symmetry; apply Z.eqb_neq; lia).
    rewrite (A C T1 T2 O).
    apply R. 1: exact K.
    unfold weeklyIntervalPasses. rewrite F, gt_int, lt_int.
    destruct (Z.ltb_spec 2 n), (Z.ltb_spec n 0); try lia; reflexivity.
  - intros ->. apply I, C.
Qed.


(** A weekly meeting every second week, on a Thursday. *)
Lemma weekly_interval_bound_witness :
  validateSchedule Sample.platform "info" "" (Some "guild")
    (Sample.schedule "Team Sync" Sample.nine Sample.ten "weekly" (int 2))
    Sample.extracted
  = Accepted (scheduleOptions ""
                (Sample.schedule "Team Sync" Sample.nine Sample.ten
                   "weekly" (int 2))
                Discord.Weekly [Discord.Thursday]).
Proof.
  refine (proj1
    (weekly_interval_bound Sample.platform "info" "" (Some "guild")
       (Sample.schedule "Team Sync" Sample.nine Sample.ten "weekly" (int 2))
       Sample.extracted 2 _ eq_refl eq_refl) _ _).
  - unfold otherwiseValid.
    repeat split; try (vm_compute; reflexivity).
    exists "guild". split; reflexivity.
  - right. reflexivity.
  - vm_compute. discriminate.
Defined.

(** C1 (as stated) fails at the interval 0: the line below is otherwise
    valid and weekly, and it is rejected with [IncompleteSpecification], not
    with [InvalidWeeklyInterval]; the test of the [weekly] case itself lets
    the interval 0 through. *)
Lemma weekly_interval_zero_counterexample :
  let line :=
    "Team Sync; 2999-01-10 09:00; 2999-01-10 10:00; Europe/Berlin; Zoom; Weekly team meeting; weekly; 0" in
  let spec :=
    Sample.schedule "Team Sync" Sample.nine Sample.ten "weekly" (int 0) in
  returned (extractEventdetails Sample.platform line "New Schedule"
              Sample.start) = Some spec /\
  otherwiseValid Sample.platform (Some "guild") spec Sample.extracted /\
  validateSchedule Sample.platform line "" (Some "guild") spec Sample.extracted
  = Rejected IncompleteSpecification /\
  scheduleVerdict Sample.platform line "" (Some "guild") Sample.start
  = Rejected IncompleteSpecification /\
  scheduleVerdict Sample.platform line "" (Some "guild") Sample.start
  <> Rejected InvalidWeeklyInterval /\
  weeklyIntervalPasses (frequency spec) = true.
Proof.
  cbv zeta. split; [vm_compute; reflexivity|].
  split; [unfold otherwiseValid; repeat split;
          try (vm_compute; reflexivity); exists "guild"; split; reflexivity|].
  split; [vm_compute; reflexivity|].
  split; [vm_compute; reflexivity|].
  split; [vm_compute; discriminate | reflexivity].
Qed.

(** The test of the [weekly] case lets through what is neither below 0 nor
    above 2, and a comparison with [NaN] is false: a fractional interval and
    an interval that is not a number are accepted as well. *)
Lemma weekly_interval_not_an_integer :
  weeklyIntervalPasses NaN = true /\
  weeklyIntervalPasses (Num (3 # 2)) = true /\
  exists o,
    scheduleVerdict Sample.platform
      "Team Sync; 2999-01-10 09:00; 2999-01-10 10:00; Europe/Berlin; Zoom; Weekly team meeting; weekly; often"
      "" (Some "guild") Sample.start = Accepted o.
Proof.
  split; [reflexivity|]. split; [reflexivity|].
  eexists. vm_compute. reflexivity.
Qed.

Lemma threeChecks_created P hasEmptyValues format info ev attempt w :
  quiet (hasEmptyValues ev) ->
  (forall w', created (effects (attempt w')) = []) ->
  created (effects (threeChecks P hasEmptyValues format info ev attempt w))
  = [].
Proof.
  intros Q H. destruct (Q w) as (b & w1 & E).
  rewrite (threeChecks_effects _ _ _ _ _ _ _ _ _ E).
  destruct b; [reflexivity|].
  destruct (_ || _); [reflexivity|].
  destruct (_ <=? _); [reflexivity | apply H].
Qed.

(** What the [try] statement surfaces without a server: nothing. *)
Lemma scheduleTry_without_server P att guild ev w :
  guild = None \/ (exists g, guild = Some g /\ fetchGuild P g = false) ->
  verdictOf (effects (scheduleTry P att guild ev w)) = NoVerdict.
Proof.
  intros [-> | (g & -> & F)]; [reflexivity|].
  unfold scheduleTry, tryCatch, bind, guildsFetch. rewrite F. reflexivity.
Qed.

(** C4 (amended): A recurring specification whose recurrence kind is
    monthly or yearly is never accepted and nothing is handed to the event
    creation, whatever its other fields.  The reason surfaced is the one of
    the first check that fails among the completeness check, the check of
    the temporal position and the check of the order; when the three pass
    and the server is fetched, it is [UnsupportedRecurrence]; when the three
    pass and the server identifier is missing or the server cannot be
    fetched, no reason is surfaced. *)
Theorem monthly_yearly_unsupported P info att guild ev w :
  interval ev = Some "monthly" \/ interval ev = Some "yearly" ->
  let completeness := scheduleHasEmptyValues P ev w in
  let now1 := clockAt P (reads (world completeness)) in
  let now2 := clockAt P (S (reads (world completeness))) in
  let v := validateSchedule P info att guild ev w in
  created (effects (createScheduleFrom P info att guild ev w)) = [] /\
  (forall o, v <> Accepted o) /\
  (exists b, returned completeness = Some b) /\
  (returned completeness = Some true ->
   v = Rejected IncompleteSpecification) /\
  (returned completeness = Some false ->
   time (startTime ev) <= now1 \/ time (endTime ev) <= now2 ->
   v = Rejected TimeInPast) /\
  (returned completeness = Some false ->
   now1 < time (startTime ev) -> now2 < time (endTime ev) ->
   time (endTime ev) <= time (startTime ev) ->
   v = Rejected EndBeforeStart) /\
  (returned completeness = Some false ->
   now1 < time (startTime ev) -> now2 < time (endTime ev) ->
   time (startTime ev) < time (endTime ev) ->
   (forall g, guild = Some g -> fetchGuild P g = true ->
      v = Rejected UnsupportedRecurrence) /\
   (guild = None \/ (exists g, guild = Some g /\ fetchGuild P g = false) ->
    v = NoVerdict)).
Proof.
  intros K. cbv zeta.
  assert (N : created (effects (createScheduleFrom P info att guild ev w))
              = []).
  { rewrite createScheduleFrom_checks.
    apply threeChecks_created; [apply scheduleHasEmptyValues_quiet|].
    intros w'. apply scheduleTry_unsupported_creates_nothing, K. }
  split; [exact N|].
  split; [intros o H; apply verdictOf_accepted_created in H; contradiction|].
  destruct (schedule_first_failure P info att guild ev w)
    as (B & I & T & O & A).
  split; [exact B|]. split; [exact I|]. split; [exact T|]. split; [exact O|].
  intros C T1 T2 Lt. rewrite (A C T1 T2 Lt). split.
  - intros g -> G. apply (recurrence_reasons P att ev g _ G), K.
  - apply scheduleTry_without_server.
Qed.

(** A monthly meeting in 2999. *)
Lemma monthly_yearly_unsupported_witness :
  validateSchedule Sample.platform "info" "" (Some "guild")
    (Sample.schedule "Board" Sample.nine Sample.ten "monthly" (int 1))
    Sample.extracted
  = Rejected UnsupportedRecurrence.
Proof.
  refine (proj1 (proj2 (proj2 (proj2 (proj2 (proj2 (proj2
    (monthly_yearly_unsupported Sample.platform "info" "" (Some "guild")
       (Sample.schedule "Board" Sample.nine Sample.ten "monthly" (int 1))
       Sample.extracted (or_introl eq_refl))))))) _ _ _ _) "guild" _ _);
    try (vm_compute; congruence); reflexivity.
Defined.

(** C4 (as stated) fails when an earlier check fails, and when there is no
    server: a monthly schedule whose dates lie in the past is rejected with
    [TimeInPast], and one that passes the three checks, sent where the
    server identifier is missing, gets no rejection at all. *)
Lemma monthly_in_past_counterexample :
  let line :=
    "Board; 2020-01-10 09:00; 2020-01-10 09:30; Europe/Berlin; Zoom; Weekly team meeting; monthly; 1" in
  let spec :=
    Sample.schedule "Board" Sample.longAgo (Sample.longAgo + 1800000)
      "monthly" (int 1) in
  let later :=
    "Board; 2999-01-10 09:00; 2999-01-10 10:00; Europe/Berlin; Zoom; Weekly team meeting; monthly; 1" in
  returned (extractEventdetails Sample.platform line "New Schedule"
              Sample.start) = Some spec /\
  interval spec = Some "monthly" /\
  validateSchedule Sample.platform line "" (Some "guild") spec Sample.extracted
  = Rejected TimeInPast /\
  scheduleVerdict Sample.platform line "" (Some "guild") Sample.start
  = Rejected TimeInPast /\
  scheduleVerdict Sample.platform line "" (Some "guild") Sample.start
  <> Rejected UnsupportedRecurrence /\
  scheduleVerdict Sample.platform later "" None Sample.start = NoVerdict.
Proof.
  cbv zeta. split; [vm_compute; reflexivity|].
  split; [reflexivity|].
  split; [vm_compute; reflexivity|].
  split; [vm_compute; reflexivity|].
  split; [vm_compute; discriminate | vm_compute; reflexivity].
Qed.

(* ================================================================== *)
(** * The claims on the resolution of a date and on the extraction *)
(* ================================================================== *)

(** The regular expression of [parseCustomDate] matches the texts of the
    shape [YYYY-MM-DD HH:MM] and no other. *)
Lemma matchDateTime_shape text :
  matchDateTime text <> None <-> hasShape text.
Proof.
  split.
  - intros H. unfold matchDateTime in H.
    pose proof (string_of_list_ascii_of_string text) as T.
    destruct (list_ascii_of_string text) as [|y1 l]; [congruence|].
    destruct l as [|y2 l]; [congruence|].
    destruct l as [|y3 l]; [congruence|].
    destruct l as [|y4 l]; [congruence|].
    destruct l as [|s1 l]; [congruence|].
    destruct l as [|m1 l]; [congruence|].
    destruct l as [|m2 l]; [congruence|].
    destruct l as [|s2 l]; [congruence|].
    destruct l as [|d1 l]; [congruence|].
    destruct l as [|d2 l]; [congruence|].
    destruct l as [|s3 l]; [congruence|].
    destruct l as [|h1 l]; [congruence|].
    destruct l as [|h2 l]; [congruence|].
    destruct l as [|s4 l]; [congruence|].
    destruct l as [|n1 l]; [congruence|].
    destruct l as [|n2 l]; [congruence|].
    destruct l as [|x l]; [|congruence].
    match type of H with (if ?c then _ else _) <> _ =>
      destruct c eqn:C; [|congruence] end.
    apply andb_prop in C as [C E4]. apply andb_prop in C as [C E3].
    apply andb_prop in C as [C E2]. apply andb_prop in C as [C E1].
    apply Ascii.eqb_eq in E1, E2, E3, E4. subst s1 s2 s3 s4.
    exists y1, y2, y3, y4, m1, m2, d1, d2, h1, h2, n1, n2.
    split; [exact C | symmetry; exact T].
  - intros (y1 & y2 & y3 & y4 & m1 & m2 & d1 & d2 & h1 & h2 & n1 & n2
            & D & ->).
    unfold matchDateTime. rewrite list_ascii_of_string_of_list_ascii.
    rewrite D. cbn. discriminate.
Qed.

Section Resolution.

Context (P : Platform).

Lemma resolveInstant_shape text zone :
  ~ hasShape text -> resolveInstant P text zone = None.
Proof.
  intros H. unfold resolveInstant.
  destruct (matchDateTime text) eqn:E; [|reflexivity].
  exfalso. apply H, matchDateTime_shape. congruence.
Qed.

Lemma resolveInstant_zone text z :
  zoneToUTC P z = None -> resolveInstant P text (Some z) = None.
Proof.
  intros H. unfold resolveInstant.
  destruct (matchDateTime text) as [[[datePart hourStr] minuteStr]|];
    [|reflexivity].
  unfold Luxon.fromFormat, Luxon.normalizeZone. rewrite H.
  destruct (Luxon.parseTokens _); reflexivity.
Qed.

(** C8: [parseCustomDate] returns on every date-time text and every zone
    argument, and it returns [null] for a text that has not the shape
    [YYYY-MM-DD HH:MM] and for a zone identifier that is not recognised: no
    exception is thrown. *)
Theorem parseCustomDate_returns_null text zone w :
  (exists r, outcome (parseCustomDate P (Some text) zone w) = Returned r) /\
  (~ hasShape text \/ (exists z, zone = Some z /\ zoneToUTC P z = None) ->
   outcome (parseCustomDate P (Some text) zone w) = Returned None).
Proof.
  rewrite parseCustomDate_run. split.
  - destruct (resolveInstant P text zone); eexists; reflexivity.
  - intros [H | (z & -> & H)].
    + rewrite resolveInstant_shape by exact H. reflexivity.
    + rewrite resolveInstant_zone by exact H. reflexivity.
Qed.

End Resolution.

(** A date written the other way round, and a zone that does not exist. *)
Lemma parseCustomDate_returns_null_witness :
  outcome (parseCustomDate Sample.platform (Some "10.01.2999 09:00")
             (Some "Europe/Berlin") Sample.start) = Returned None /\
  outcome (parseCustomDate Sample.platform (Some "2999-01-10 09:00")
             (Some "Mars/Olympus") Sample.start) = Returned None.
Proof.
  split.
  - apply (parseCustomDate_returns_null Sample.platform). left.
    intros H. apply matchDateTime_shape in H. apply H. reflexivity.
  - apply (parseCustomDate_returns_null Sample.platform). right.
    exists "Mars/Olympus". split; reflexivity.
Defined.

(* ================================================================== *)
(** * From the instant back to the text *)
(* ================================================================== *)

Lemma yearBase_daysFromCivil y m d :
  Luxon.daysFromCivil y m d =
  yearBase (if m <=? 2 then y - 1 else y)
  + ((153 * ((m + 9) mod 12) + 2) / 5 + d - 1).
Proof.
  unfold Luxon.daysFromCivil, yearBase. cbv zeta.
  generalize (if m <=? 2 then y - 1 else y) as a.
  generalize ((153 * ((m + 9) mod 12) + 2) / 5 + d - 1) as doy.
  intros doy a. Z.div_mod_to_equations. lia.
Qed.

Lemma yearBase_next a :
  yearBase (a + 1) =
  yearBase a + 365 + (if Luxon.isLeapYear (a + 1) then 1 else 0).
Proof.
  unfold yearBase, Luxon.isLeapYear.
  destruct (Z.eqb_spec ((a + 1) mod 4) 0);
    destruct (Z.eqb_spec ((a + 1) mod 100) 0);
    destruct (Z.eqb_spec ((a + 1) mod 400) 0); cbn [andb orb negb];
    Z.div_mod_to_equations; lia.
Qed.

Lemma yearBase_mono a b : a <= b -> yearBase a <= yearBase b.
Proof. unfold yearBase. intros H. Z.div_mod_to_equations. lia. Qed.

(** The day of the year that runs from March to February, month by
    month. *)
Lemma dayOfYear_cases y m d :
  1 <= m <= 12 -> 1 <= d <= Luxon.daysInMonth y m ->
  let doy := (153 * ((m + 9) mod 12) + 2) / 5 + d - 1 in
  (m = 3 /\ doy = d - 1 /\ d <= 31) \/
  (m = 4 /\ doy = 30 + d /\ d <= 30) \/
  (m = 5 /\ doy = 60 + d /\ d <= 31) \/
  (m = 6 /\ doy = 91 + d /\ d <= 30) \/
  (m = 7 /\ doy = 121 + d /\ d <= 31) \/
  (m = 8 /\ doy = 152 + d /\ d <= 31) \/
  (m = 9 /\ doy = 183 + d /\ d <= 30) \/
  (m = 10 /\ doy = 213 + d /\ d <= 31) \/
  (m = 11 /\ doy = 244 + d /\ d <= 30) \/
  (m = 12 /\ doy = 274 + d /\ d <= 31) \/
  (m = 1 /\ doy = 305 + d /\ d <= 31) \/
  (m = 2 /\ doy = 336 + d /\ d <= 29 /\
   (d = 29 -> Luxon.isLeapYear y = true)).
Proof.
  intros M D. cbv zeta.
  assert (C : m = 1 \/ m = 2 \/ m = 3 \/ m = 4 \/ m = 5 \/ m = 6 \/ m = 7 \/
              m = 8 \/ m = 9 \/ m = 10 \/ m = 11 \/ m = 12) by lia.
  unfold Luxon.daysInMonth in D.
  repeat (destruct C as [C | C]; [subst m|]); try subst m;
    cbn in D;
    match goal with
    | |- context [(153 * ((?k + 9) mod 12) + 2) / 5] =>
        let v := eval vm_compute in ((153 * ((k + 9) mod 12) + 2) / 5) in
        change ((153 * ((k + 9) mod 12) + 2) / 5) with v
    end; try lia.
  do 11 right. split; [reflexivity|].
  destruct (Luxon.isLeapYear y); repeat split; try lia.
Qed.

Lemma dayOfYear_bound y m d :
  1 <= m <= 12 -> 1 <= d <= Luxon.daysInMonth y m ->
  0 <= (153 * ((m + 9) mod 12) + 2) / 5 + d - 1
  < 365 + (if Luxon.isLeapYear ((if m <=? 2 then y - 1 else y) + 1)
           then 1 else 0).
Proof.
  intros M D. pose proof (dayOfYear_cases y m d M D) as C. cbv zeta in C.
  revert C. generalize ((153 * ((m + 9) mod 12) + 2) / 5 + d - 1) as doy.
  intros doy C.
  destruct C as [C|[C|[C|[C|[C|[C|[C|[C|[C|[C|[C|C]]]]]]]]]]];
    destruct C as (-> & -> & C); cbn [Z.leb Z.compare Pos.compare Pos.compare_cont];
    try (destruct (Luxon.isLeapYear _); lia).
  replace (y - 1 + 1) with y by lia.
  destruct C as (C29 & L). destruct (Luxon.isLeapYear y); [lia|].
  assert (d <> 29) by (intros E; specialize (L E); discriminate). lia.
Qed.

Lemma daysFromCivil_inj y1 m1 d1 y2 m2 d2 :
  1 <= m1 <= 12 -> 1 <= d1 <= Luxon.daysInMonth y1 m1 ->
  1 <= m2 <= 12 -> 1 <= d2 <= Luxon.daysInMonth y2 m2 ->
  Luxon.daysFromCivil y1 m1 d1 = Luxon.daysFromCivil y2 m2 d2 ->
  y1 = y2 /\ m1 = m2 /\ d1 = d2.
Proof.
  intros M1 D1 M2 D2 E. rewrite !yearBase_daysFromCivil in E.
  pose proof (dayOfYear_bound y1 m1 d1 M1 D1) as B1.
  pose proof (dayOfYear_bound y2 m2 d2 M2 D2) as B2.
  pose proof (dayOfYear_cases y1 m1 d1 M1 D1) as C1.
  pose proof (dayOfYear_cases y2 m2 d2 M2 D2) as C2.
  cbv zeta in C1, C2.
  set (doy1 := (153 * ((m1 + 9) mod 12) + 2) / 5 + d1 - 1) in *.
  set (doy2 := (153 * ((m2 + 9) mod 12) + 2) / 5 + d2 - 1) in *.
  assert (A : (if m1 <=? 2 then y1 - 1 else y1)
              = (if m2 <=? 2 then y2 - 1 else y2)).
  { set (a1 := if m1 <=? 2 then y1 - 1 else y1) in *.
    set (a2 := if m2 <=? 2 then y2 - 1 else y2) in *.
    pose proof (yearBase_next a1) as N1. pose proof (yearBase_next a2) as N2.
    destruct (Z.lt_trichotomy a1 a2) as [L | [L | L]]; [exfalso|exact L|exfalso].
    - pose proof (yearBase_mono (a1 + 1) a2 ltac:(lia)). lia.
    - pose proof (yearBase_mono (a2 + 1) a1 ltac:(lia)). lia. }
  rewrite A in E. assert (Dy : doy1 = doy2) by lia.
  clearbody doy1 doy2. clear B1 B2 E.
  destruct C1 as [C1|[C1|[C1|[C1|[C1|[C1|[C1|[C1|[C1|[C1|[C1|C1]]]]]]]]]]];
    destruct C1 as (-> & -> & C1);
    destruct C2 as [C2|[C2|[C2|[C2|[C2|[C2|[C2|[C2|[C2|[C2|[C2|C2]]]]]]]]]]];
    destruct C2 as (-> & E2 & C2);
    cbn [Z.leb Z.compare Pos.compare Pos.compare_cont] in A; lia.
Qed.

Lemma digitValue_range c : isDigit c = true -> 0 <= digitValue c <= 9.
Proof.
  unfold isDigit, digitValue. intros H. apply andb_prop in H as [A B].
  apply Nat.leb_le in A, B. lia.
Qed.

Lemma digitValue_inj a b : digitValue a = digitValue b -> a = b.
Proof.
  unfold digitValue. intros H.
  assert (E : nat_of_ascii a = nat_of_ascii b) by lia.
  rewrite <- (ascii_nat_embedding a), <- (ascii_nat_embedding b), E.
  reflexivity.
Qed.

Lemma two_digits a b :
  digitsValue [a; b] = 10 * digitValue a + digitValue b.
Proof. unfold digitsValue. cbn [fold_left]. lia. Qed.

Lemma four_digits a b c d :
  digitsValue [a; b; c; d] =
  1000 * digitValue a + 100 * digitValue b + 10 * digitValue c
  + digitValue d.
Proof. unfold digitsValue. cbn [fold_left]. lia. Qed.

(** The regular expression lets through what luxon's tokens read, with
    the groups put together again as they stood. *)
Lemma matchDateTime_text text datePart hourStr minuteStr :
  matchDateTime text = Some (datePart, hourStr, minuteStr) ->
  datePart ++ " " ++ hourStr ++ ":" ++ minuteStr = text.
Proof.
  intros Mt.
  assert (Sh : hasShape text) by (apply matchDateTime_shape; congruence).
  destruct Sh as (y1 & y2 & y3 & y4 & m1 & m2 & d1 & d2 & h1 & h2 & n1 & n2
                  & D & ->).
  unfold matchDateTime in Mt.
  rewrite list_ascii_of_string_of_list_ascii, D in Mt. cbn in Mt.
  injection Mt as <- <- <-. reflexivity.
Qed.

(** The digits of a text that luxon's tokens read. *)
Lemma parseTokens_digits text f :
  Luxon.parseTokens text = Some f ->
  exists y1 y2 y3 y4 m1 m2 d1 d2 h1 h2 n1 n2,
    forallb isDigit [y1; y2; y3; y4; m1; m2; d1; d2; h1; h2; n1; n2] = true /\
    text = string_of_list_ascii
             [y1; y2; y3; y4; "-"%char; m1; m2; "-"%char; d1; d2; " "%char;
              h1; h2; ":"%char; n1; n2] /\
    f = (digitsValue [y1; y2; y3; y4], digitsValue [m1; m2],
         digitsValue [d1; d2], digitsValue [h1; h2], digitsValue [n1; n2]).
Proof.
  intros H. unfold Luxon.parseTokens in H.
  pose proof (string_of_list_ascii_of_string text) as T.
  destruct (list_ascii_of_string text) as [|y1 l]; [congruence|].
  destruct l as [|y2 l]; [congruence|].
  destruct l as [|y3 l]; [congruence|].
  destruct l as [|y4 l]; [congruence|].
  destruct l as [|s1 l]; [congruence|].
  destruct l as [|m1 l]; [congruence|].
  destruct l as [|m2 l]; [congruence|].
  destruct l as [|s2 l]; [congruence|].
  destruct l as [|d1 l]; [congruence|].
  destruct l as [|d2 l]; [congruence|].
  destruct l as [|s3 l]; [congruence|].
  destruct l as [|h1 l]; [congruence|].
  destruct l as [|h2 l]; [congruence|].
  destruct l as [|s4 l]; [congruence|].
  destruct l as [|n1 l]; [congruence|].
  destruct l as [|n2 l]; [congruence|].
  destruct l as [|x l]; [|congruence].
  match type of H with (if ?c then _ else _) = _ =>
    destruct c eqn:C; [|congruence] end.
  apply andb_prop in C as [C E4]. apply andb_prop in C as [C E3].
  apply andb_prop in C as [C E2]. apply andb_prop in C as [C E1].
  apply Ascii.eqb_eq in E1, E2, E3, E4. subst s1 s2 s3 s4.
  exists y1, y2, y3, y4, m1, m2, d1, d2, h1, h2, n1, n2.
  split; [exact C|]. split; [symmetry; exact T | congruence].
Qed.

(** Two texts in which luxon's tokens read the same fields are the same
    text. *)
Lemma parseTokens_inj text1 text2 f :
  Luxon.parseTokens text1 = Some f -> Luxon.parseTokens text2 = Some f ->
  text1 = text2.
Proof.
  intros H1 H2.
  destruct (parseTokens_digits _ _ H1)
    as (y1 & y2 & y3 & y4 & m1 & m2 & d1 & d2 & h1 & h2 & n1 & n2
        & D & -> & F).
  destruct (parseTokens_digits _ _ H2)
    as (y1' & y2' & y3' & y4' & m1' & m2' & d1' & d2' & h1' & h2' & n1' & n2'
        & D' & -> & F').
  rewrite F in F'. injection F' as Ey Em Ed Eh En.
  rewrite !four_digits in Ey. rewrite !two_digits in Em, Ed, Eh, En.
  cbn [forallb] in D, D'.
  repeat match goal with
         | H : _ && _ = true |- _ => apply andb_prop in H as [? H]
         end.
  repeat match goal with
         | H : isDigit _ = true |- _ => apply digitValue_range in H
         end.
  assert (digitValue y1 = digitValue y1' /\ digitValue y2 = digitValue y2' /\
          digitValue y3 = digitValue y3' /\ digitValue y4 = digitValue y4' /\
          digitValue m1 = digitValue m1' /\ digitValue m2 = digitValue m2' /\
          digitValue d1 = digitValue d1' /\ digitValue d2 = digitValue d2' /\
          digitValue h1 = digitValue h1' /\ digitValue h2 = digitValue h2' /\
          digitValue n1 = digitValue n1' /\ digitValue n2 = digitValue n2')
    as E by lia.
  repeat match type of E with
         | _ /\ _ => let X := fresh in destruct E as [X E];
                     apply digitValue_inj in X; subst
         end.
  apply digitValue_inj in E. subst. reflexivity.
Qed.

Lemma parseTokens_nonneg text y m d h mi :
  Luxon.parseTokens text = Some (y, m, d, h, mi) -> 0 <= h /\ 0 <= mi.
Proof.
  intros H.
  destruct (parseTokens_digits _ _ H)
    as (y1 & y2 & y3 & y4 & m1 & m2 & d1 & d2 & h1 & h2 & n1 & n2
        & D & _ & F).
  injection F as -> -> -> -> ->. rewrite !two_digits.
  cbn [forallb] in D.
  repeat match goal with
         | H : _ && _ = true |- _ => apply andb_prop in H as [? H]
         end.
  repeat match goal with
         | H : isDigit _ = true |- _ => apply digitValue_range in H
         end.
  lia.
Qed.

(** What [resolveInstant] computes when it resolves. *)
Lemma resolveInstant_fields P text zone ts :
  resolveInstant P text zone = Some ts ->
  exists y m d h mi toUTC,
    Luxon.parseTokens text = Some (y, m, d, h, mi) /\
    Luxon.normalizeZone P zone = Some toUTC /\
    Luxon.validFields (y, m, d, h, mi) = true /\
    ts = toUTC (Luxon.localMillis y m d h mi).
Proof.
  unfold resolveInstant.
  destruct (matchDateTime text) as [[[datePart hourStr] minuteStr]|] eqn:Mt;
    [|discriminate].
  rewrite (matchDateTime_text _ _ _ _ Mt). unfold Luxon.fromFormat.
  destruct (Luxon.parseTokens text) as [[[[[y m] d] h] mi]|]; [|discriminate].
  destruct (Luxon.normalizeZone P zone) as [toUTC|]; [|discriminate].
  destruct (Luxon.validFields (y, m, d, h, mi)) eqn:V; [|discriminate].
  intros H. injection H as <-.
  exists y, m, d, h, mi, toUTC. repeat split. exact V.
Qed.




Lemma createNewDiscordSchedule_effects P line att guild w ev w1 es :
  extractEventdetails P line "New Schedule" w = mkRes (Returned ev) w1 es ->
  effects (createNewDiscordSchedule P line att guild w) =
  LogInfo (MInvokingSchedule line)
  :: es ++ effects (createScheduleFrom P line att guild ev w1).
Proof.
  intros H. unfold createNewDiscordSchedule.
  rewrite (bind_returned _ _ w tt w [LogInfo (MInvokingSchedule line)])
    by reflexivity.
  cbn [effects app]. rewrite (bind_returned _ _ _ _ _ _ H). reflexivity.
Qed.

(** C2 (amended): On a line of at least three fields extraction returns a
    specification, in every mode.  An unrecognised mode yields the
    EmptySpecification.  In the two recognised modes the text fields are the
    fields of the line as they are, the zone defaulted when empty, and the
    start and the end are the instants their texts resolve to, or the epoch
    when they do not resolve; the recurrence kind and the interval are [""]
    and 0 in the single mode, and in the recurring mode the seventh field
    as it is and the number unary [+] makes of the trimmed eighth field
    ([NaN] when the field is missing). *)
Theorem extraction_returns P line mode w :
  (3 <= List.length (split line))%nat ->
  exists ev w1 es,
    extractEventdetails P line mode w = mkRes (Returned ev) w1 es /\
    (mode <> "New Event" -> mode <> "New Schedule" ->
     isEmptySpecification ev) /\
    (mode = "New Event" \/ mode = "New Schedule" ->
     eventName ev = nth_error (split line) 0 /\
     timezone ev = zoneOf (split line) /\
     eventLocation ev = nth_error (split line) 4 /\
     description ev = nth_error (split line) 5 /\
     (forall text, nth_error (split line) 1 = Some text ->
        time (startTime ev) = instantOrEpoch P text (zoneOf (split line))) /\
     (forall text, nth_error (split line) 2 = Some text ->
        time (endTime ev) = instantOrEpoch P text (zoneOf (split line)))) /\
    (mode = "New Event" ->
     interval ev = Some "" /\ frequency ev = int 0) /\
    (mode = "New Schedule" ->
     interval ev = nth_error (split line) 6 /\
     frequency ev =
     unaryPlus P (option_map (trim P) (nth_error (split line) 7))).
Proof.
  intros L.
  destruct (split line) as [|p0 [|p1 [|p2 more]]] eqn:S;
    try (cbn in L; lia).
  destruct (extractEventdetails_run P line mode w p0 p1 p2 more S)
    as (dS & dE & w1 & es & E & TS & TE & _).
  cbv zeta in E, TS, TE. rewrite E.
  destruct (String.eqb_spec mode "New Event") as [M1 | M1];
    [|destruct (String.eqb_spec mode "New Schedule") as [M2 | M2]].
  - do 3 eexists. split; [reflexivity|]. split; [congruence|].
    split; [|split; [intros _; split; reflexivity|]].
    + intros _. cbn. repeat split; intros text T; inversion T; subst text;
        assumption.
    + intros M. subst mode. discriminate.
  - do 3 eexists. split; [reflexivity|]. split; [congruence|].
    split; [|split; [intros M; contradiction|]].
    + intros _. cbn. repeat split; intros text T; inversion T; subst text;
        assumption.
    + intros _. split; reflexivity.
  - do 3 eexists. split; [reflexivity|]. split; [|split; [|split]].
    + intros _ _. repeat split.
    + intros [M | M]; contradiction.
    + intros M; contradiction.
    + intros M; contradiction.
Qed.

(** The line of scenario A, read in a mode that does not exist. *)
Lemma extraction_returns_witness :
  exists ev w1 es,
    extractEventdetails Sample.platform
      "Standup; 2999-01-10 09:00; 2999-01-10 09:30; Europe/Berlin; Office; Daily check-in"
      "Old Event" Sample.start = mkRes (Returned ev) w1 es /\
    isEmptySpecification ev.
Proof.
  destruct (extraction_returns Sample.platform
    "Standup; 2999-01-10 09:00; 2999-01-10 09:30; Europe/Berlin; Office; Daily check-in"
    "Old Event" Sample.start) as (ev & w1 & es & E & H & _).
  - vm_compute. lia.
  - exists ev, w1, es. split; [exact E|]. apply H; discriminate.
Defined.

(** C2 (as stated) fails in two ways: a start text that does not resolve
    yields a specification that is not the EmptySpecification, and a line
    of fewer than three fields makes the extraction throw. *)
Lemma extraction_counterexample :
  (exists ev w1 es,
     extractEventdetails Sample.platform
       "X; tomorrow; 2999-01-10 10:00; Europe/Berlin; Y; Z" "New Event"
       Sample.start = mkRes (Returned ev) w1 es /\
     eventName ev = Some "X" /\ ~ isEmptySpecification ev) /\
  outcome (extractEventdetails Sample.platform "X" "New Event" Sample.start)
  = Thrown TypeError /\
  outcome (extractEventdetails Sample.platform "X; 2999-01-10 10:00"
             "New Schedule" Sample.start)
  = Thrown TypeError.
Proof.
  split; [|split; reflexivity].
  do 3 eexists. split; [vm_compute; reflexivity|].
  split; [reflexivity|]. intros (H & _). discriminate.
Qed.

(** C10 (amended): When the text of the start or of the end does not
    resolve, extraction stores the epoch in that field, in the single and in
    the recurring mode.  In the recurring mode, when the text fields and the
    interval are filled in, the clock shows a time after the epoch and a
    date that did resolve is not at the "now" sentinel, the specification
    passes the completeness check and the line is rejected with
    [TimeInPast]. *)
Theorem unresolved_date_is_epoch P line mode att guild w p0 p1 p2 more :
  split line = p0 :: p1 :: p2 :: more ->
  mode = "New Event" \/ mode = "New Schedule" ->
  resolveInstant P p1 (zoneOf (split line)) = None \/
  resolveInstant P p2 (zoneOf (split line)) = None ->
  exists ev w1 es,
    extractEventdetails P line mode w = mkRes (Returned ev) w1 es /\
    (resolveInstant P p1 (zoneOf (split line)) = None ->
     time (startTime ev) = 0) /\
    (resolveInstant P p2 (zoneOf (split line)) = None ->
     time (endTime ev) = 0) /\
    (mode = "New Schedule" ->
     emptyFields ev = false ->
     (forall n, 0 < clockAt P n) ->
     (forall ts, resolveInstant P p1 (zoneOf (split line)) = Some ts ->
        ts <> clockAt P (reads w1)) ->
     (forall ts, resolveInstant P p2 (zoneOf (split line)) = Some ts ->
        ts <> clockAt P (S (reads w1))) ->
     returned (scheduleHasEmptyValues P ev w1) = Some false /\
     scheduleVerdict P line att guild w = Rejected TimeInPast).
Proof.
  intros Sp M U.
  destruct (extractEventdetails_run P line mode w p0 p1 p2 more Sp)
    as (dS & dE & w1 & es & E & TS & TE & RS & RE & Lg).
  cbv zeta in E, TS, TE. rewrite <- Sp in TS, TE.
  assert (T1 : resolveInstant P p1 (zoneOf (split line)) = None ->
               time dS = 0).
  { intros H. rewrite TS. unfold instantOrEpoch. rewrite H. reflexivity. }
  assert (T2 : resolveInstant P p2 (zoneOf (split line)) = None ->
               time dE = 0).
  { intros H. rewrite TE. unfold instantOrEpoch. rewrite H. reflexivity. }
  destruct M as [-> | ->]; cbn [String.eqb Ascii.eqb Bool.eqb] in E;
    match type of E with _ = mkRes (Returned ?e) _ _ => set (ev := e) in * end;
    exists ev, w1, es; (split; [exact E|]);
    (split; [exact T1|]); (split; [exact T2|]); [discriminate|].
  intros _ Full Clock N1 N2.
  destruct (scheduleHasEmptyValues_fields P ev w1) as (w2 & C & W).
  assert (Sn : atSentinel P ev w1 = false).
  { unfold atSentinel. cbn [startTime endTime ev]. apply orb_false_iff.
    split; apply Z.eqb_neq.
    - rewrite TS. unfold instantOrEpoch.
      destruct (resolveInstant P p1 (zoneOf (split line))) as [ts|] eqn:R;
        [apply N1; reflexivity | pose proof (Clock (reads w1)); lia].
    - rewrite TE. unfold instantOrEpoch.
      destruct (resolveInstant P p2 (zoneOf (split line))) as [ts|] eqn:R;
        [apply N2; reflexivity | pose proof (Clock (S (reads w1))); lia]. }
  rewrite Full, Sn in C, W. cbn [orb] in C, W.
  assert (R : returned (scheduleHasEmptyValues P ev w1) = Some false)
    by (unfold returned; rewrite C; reflexivity).
  split; [exact R|].
  unfold scheduleVerdict.
  rewrite (createNewDiscordSchedule_effects P line att guild w ev w1 es E).
  cbn [verdictOf]. rewrite (verdictOf_logs es _ Lg).
  destruct (schedule_first_failure P line att guild ev w1)
    as (_ & _ & Past & _).
  apply Past; [exact R|].
  rewrite C. cbn [world]. rewrite (W eq_refl). cbn [reads].
  pose proof (Clock (S (S (reads w1)))) as C1.
  pose proof (Clock (S (S (S (reads w1))))) as C2.
  destruct U as [H | H];
    [left; change (time (startTime ev)) with (time dS); rewrite (T1 H)
    | right; change (time (endTime ev)) with (time dE); rewrite (T2 H)]; lia.
Qed.

(** A line whose start is not a date. *)
Lemma unresolved_date_is_epoch_witness :
  scheduleVerdict Sample.platform
    "Standup; tomorrow; 2999-01-10 09:30; Europe/Berlin; Office; Daily check-in; daily; 1"
    "" (Some "guild") Sample.start
  = Rejected TimeInPast.
Proof.
  destruct (unresolved_date_is_epoch Sample.platform
    "Standup; tomorrow; 2999-01-10 09:30; Europe/Berlin; Office; Daily check-in; daily; 1"
    "New Schedule" "" (Some "guild") Sample.start
    "Standup" "tomorrow" "2999-01-10 09:30"
    ["Europe/Berlin"; "Office"; "Daily check-in"; "daily"; "1"]
    eq_refl (or_intror eq_refl) (or_introl eq_refl))
    as (ev & w1 & es & E & _ & _ & V).
  vm_compute in E. inversion E. subst ev w1 es.
  apply V.
  - reflexivity.
  - reflexivity.
  - intros n. vm_compute. reflexivity.
  - intros ts H. vm_compute in H. discriminate.
  - intros ts H. vm_compute in H. inversion H. vm_compute. discriminate.
Defined.

(** C10 (as stated) fails where the completeness check does not pass: in
    the single mode the line is rejected with [IncompleteSpecification]
    although the epoch was stored for its start, and so is a recurring line
    without a name. *)
Lemma unresolved_date_counterexample :
  let single :=
    "Standup; tomorrow; 2999-01-10 09:30; Europe/Berlin; Office; Daily check-in" in
  let unnamed :=
    "; tomorrow; 2999-01-10 09:30; Europe/Berlin; Office; Daily check-in; daily; 1" in
  (exists spec,
     returned (extractEventdetails Sample.platform single "New Event"
                 Sample.start) = Some spec /\
     time (startTime spec) = 0) /\
  verdictOf (effects (createNewDiscordEvent Sample.platform single ""
                        (Some "guild") Sample.start))
  = Rejected IncompleteSpecification /\
  (exists spec w1 es,
     extractEventdetails Sample.platform unnamed "New Schedule" Sample.start
     = mkRes (Returned spec) w1 es /\
     time (startTime spec) = 0 /\
     returned (scheduleHasEmptyValues Sample.platform spec w1) = Some true) /\
  scheduleVerdict Sample.platform unnamed "" (Some "guild") Sample.start
  = Rejected IncompleteSpecification.
Proof.
  cbv zeta. split.
  - eexists. split; [vm_compute; reflexivity | reflexivity].
  - split; [vm_compute; reflexivity|]. split.
    + do 3 eexists. split; [vm_compute; reflexivity|].
      split; reflexivity.
    + vm_compute. reflexivity.
Qed.

(* ================================================================== *)
(** * The completeness check and the dates *)
(* ================================================================== *)

(** C3: The two operands of [eventHasEmptyValues] that are meant to detect
    a start or an end left at "now" compare objects, not instants.  Here the
    start of the specification, as extracted from the line, is the very
    instant of the date it is compared with, every other field is filled
    in, and the check reports no empty value. *)
Lemma sentinel_is_not_detected :
  let line :=
    "Standup; 2025-11-02 13:00; 2025-11-02 13:30; Europe/Berlin; Zoom; Weekly team meeting; daily; 1" in
  let spec :=
    Sample.schedule "Standup" Sample.noon (Sample.noon + 1800000)
      "daily" (int 1) in
  returned (extractEventdetails Sample.platform line "New Schedule"
              Sample.start) = Some spec /\
  time (startTime spec) = clockAt Sample.platform 1 /\
  returned (eventHasEmptyValues Sample.platform spec Sample.extracted)
  = Some false.
Proof. cbv zeta. split; [vm_compute; reflexivity|]. split; reflexivity. Qed.

(* ================================================================== *)
(** * The single mode, and the scenarios of the specification *)
(* ================================================================== *)

Lemma createNewDiscordEvent_effects P line att guild w ev w1 es :
  extractEventdetails P line "New Event" w = mkRes (Returned ev) w1 es ->
  effects (createNewDiscordEvent P line att guild w) =
  LogInfo (MInvokingEvent line)
  :: es ++ effects (createEventFrom P line att guild ev w1).
Proof.
  intros H. unfold createNewDiscordEvent.
  rewrite (bind_returned _ _ w tt w [LogInfo (MInvokingEvent line)])
    by reflexivity.
  cbn [effects app]. rewrite (bind_returned _ _ _ _ _ _ H). reflexivity.
Qed.

(** X11: [eventHasEmptyValues] as it stands in [additionalFunctions.ts] also
    tests the interval and the frequency, which [extractEventdetails] sets
    to [""] and 0 in the single mode: every line of the single mode is
    rejected as incomplete. *)
Lemma single_events_are_incomplete P line att guild w :
  (3 <= List.length (split line))%nat ->
  verdictOf (effects (createNewDiscordEvent P line att guild w))
  = Rejected IncompleteSpecification.
Proof.
  intros L.
  destruct (split line) as [|p0 [|p1 [|p2 more]]] eqn:S;
    try (cbn in L; lia).
  destruct (extractEventdetails_run P line "New Event" w p0 p1 p2 more S)
    as (dS & dE & w1 & es & E & _ & _ & RS & RE & Lg).
  cbv zeta in E. cbn [String.eqb Ascii.eqb Bool.eqb] in E.
  match type of E with _ = mkRes (Returned ?e) _ _ => set (ev := e) in * end.
  rewrite (createNewDiscordEvent_effects P line att guild w ev w1 es E).
  cbn [verdictOf]. rewrite (verdictOf_logs es _ Lg).
  destruct (event_first_failure P line att guild ev w1) as (_ & I & _).
  apply I.
  destruct (eventHasEmptyValues_fields P ev w1) as (w2 & C);
    [split; assumption|].
  unfold returned. rewrite C. cbn [outcome]. f_equal.
  unfold emptyFields. cbn. rewrite !orb_true_r. reflexivity.
Qed.

Example split_example :
  split "Standup; 2999-01-10 09:00; ; Office" =
  ["Standup"; "2999-01-10 09:00"; ""; "Office"].
Proof. reflexivity. Qed.

Example split_needs_the_space : split "a;b ;c" = ["a;b ;c"].
Proof. reflexivity. Qed.

Example split_empty_line : split "" = [""].
Proof. reflexivity. Qed.

(** Scenario A, the extraction: 09:00 and 09:30 in Berlin are 08:00 and
    08:30 UTC. *)
Example scenario_A_instants :
  option_map (fun spec => (time (startTime spec), time (endTime spec)))
    (returned (extractEventdetails Sample.platform
       "Standup; 2999-01-10 09:00; 2999-01-10 09:30; Europe/Berlin; Office; Daily check-in"
       "New Event" Sample.start))
  = Some (Luxon.localMillis 2999 1 10 8 0, Luxon.localMillis 2999 1 10 8 30).
Proof. vm_compute. reflexivity. Qed.

(** Scenario B: an empty zone field is read as the default zone. *)
Example scenario_B_default_zone :
  option_map timezone
    (returned (extractEventdetails Sample.platform
       "Standup; 2999-01-10 09:00; 2999-01-10 09:30; ; Office; Daily check-in"
       "New Event" Sample.start))
  = Some (Some "Europe/Amsterdam").
Proof. vm_compute. reflexivity. Qed.

(** Scenario D: a weekly schedule every five weeks. *)
Example scenario_D_weekly_five :
  scheduleVerdict Sample.platform
    "Team Sync; 2999-01-10 09:00; 2999-01-10 10:00; Europe/Berlin; Zoom; Weekly team meeting; weekly; 5"
    "" (Some "guild") Sample.start
  = Rejected InvalidWeeklyInterval.
Proof. vm_compute. reflexivity. Qed.

(** With the values of the weekday enumeration in discord-api-types, where
    Monday is 0, a weekly schedule that starts on a Monday (2999-01-14)
    makes [getWeekdayNameFromDate] throw: nothing is created. *)
Example weekly_on_a_monday :
  created (effects (createNewDiscordSchedule Sample.platform
    "Team Sync; 2999-01-14 09:00; 2999-01-14 10:00; Europe/Berlin; Zoom; Weekly team meeting; weekly; 1"
    "" (Some "guild") Sample.start)) = []
  /\ In (Send (MFailedToCreate (InvalidWeekdayIndex 1)))
        (effects (createNewDiscordSchedule Sample.platform
    "Team Sync; 2999-01-14 09:00; 2999-01-14 10:00; Europe/Berlin; Zoom; Weekly team meeting; weekly; 1"
    "" (Some "guild") Sample.start)).
Proof. split; vm_compute; [reflexivity | tauto]. Qed.

(* ================================================================== *)
(** * Splitting and joining *)
(* ================================================================== *)

Lemma string_ind2 (P : string -> Prop) :
  P "" ->
  (forall c, P (String c "")) ->
  (forall c c' s, P s -> P (String c' s) -> P (String c (String c' s))) ->
  forall s, P s.
Proof.
  intros H0 H1 H2 s.
  assert (H : P s /\ forall c, P (String c s)); [|apply H].
  induction s as [|c' s [IH1 IH2]].
  - split; [exact H0 | exact H1].
  - split; [apply IH2|]. intros c. apply H2; [exact IH1 | apply IH2].
Qed.

Lemma string_of_list_ascii_app (a b : list ascii) :
  string_of_list_ascii (a ++ b) =
  string_of_list_ascii a ++ string_of_list_ascii b.
Proof. induction a as [|c a IH]; cbn; [reflexivity | rewrite IH; reflexivity]. Qed.

Lemma append_empty_r (s : string) : s ++ "" = s.
Proof. induction s as [|c s IH]; cbn; [reflexivity | rewrite IH; reflexivity]. Qed.

Lemma append_assoc (a b c : string) : (a ++ b) ++ c = a ++ (b ++ c).
Proof. induction a as [|x a IH]; cbn; [reflexivity | rewrite IH; reflexivity]. Qed.

Lemma prependHead_prependHead a b l :
  prependHead a (prependHead b l) = prependHead (a ++ b) l.
Proof. destruct l; cbn; [reflexivity | rewrite append_assoc; reflexivity]. Qed.

Section SplitOn.

Variables c1 c2 : ascii.

Local Abbreviation sep := (separator c1 c2).

(** The piece being read is put in front of the pieces of the rest. *)
Lemma splitOnFrom_acc s cur :
  splitOnFrom c1 c2 cur s =
  prependHead (string_of_list_ascii (rev cur)) (splitOn c1 c2 s).
Proof.
  unfold splitOn. revert cur. induction s as [|c rest IH]; intros cur.
  - cbn. rewrite append_empty_r. reflexivity.
  - cbn [splitOnFrom]. destruct rest as [|c' rest'].
    + cbn. rewrite string_of_list_ascii_app. reflexivity.
    + destruct (Ascii.eqb c c1 && Ascii.eqb c' c2).
      * cbn. rewrite append_empty_r. reflexivity.
      * rewrite (IH (c :: cur)), (IH [c]), prependHead_prependHead.
        cbn [rev]. rewrite string_of_list_ascii_app. reflexivity.
Qed.

Lemma splitOn_empty : splitOn c1 c2 "" = [""].
Proof. reflexivity. Qed.

Lemma splitOn_cons c rest :
  splitOn c1 c2 (String c rest) =
  match rest with
  | String c' rest' =>
      if Ascii.eqb c c1 && Ascii.eqb c' c2
      then "" :: splitOn c1 c2 rest'
      else prependHead (String c "") (splitOn c1 c2 rest)
  | EmptyString => prependHead (String c "") (splitOn c1 c2 rest)
  end.
Proof.
  unfold splitOn at 1. cbn [splitOnFrom].
  destruct rest as [|c' rest']; [apply splitOnFrom_acc|].
  destruct (Ascii.eqb c c1 && Ascii.eqb c' c2); [reflexivity|].
  apply splitOnFrom_acc.
Qed.

Lemma splitOn_nonempty s : splitOn c1 c2 s <> [].
Proof.
  induction s as [|c rest IH]; [discriminate|].
  rewrite splitOn_cons.
  destruct rest as [|c' rest'];
    [|destruct (Ascii.eqb c c1 && Ascii.eqb c' c2); [discriminate|]];
    destruct (splitOn c1 c2 _); [contradiction | discriminate
                                | contradiction | discriminate].
Qed.

Lemma concat_prependHead pre l :
  l <> [] -> String.concat sep (prependHead pre l) = pre ++ String.concat sep l.
Proof.
  destruct l as [|p [|q ps]]; intros H; [contradiction | reflexivity|].
  cbn [prependHead String.concat]. rewrite append_assoc. reflexivity.
Qed.

(** Joining the pieces with the separator gives the string back. *)
Lemma concat_splitOn s : String.concat sep (splitOn c1 c2 s) = s.
Proof.
  induction s as [| c | c c' s IH1 IH2] using string_ind2.
  - reflexivity.
  - reflexivity.
  - rewrite splitOn_cons.
    destruct (Ascii.eqb c c1 && Ascii.eqb c' c2) eqn:E.
    + apply andb_prop in E as [E1 E2].
      apply Ascii.eqb_eq in E1, E2. subst c c'.
      pose proof (splitOn_nonempty s) as N.
      destruct (splitOn c1 c2 s) as [|p ps] eqn:S; [contradiction|].
      change (String.concat sep ("" :: p :: ps))
        with ("" ++ sep ++ String.concat sep (p :: ps)).
      rewrite IH1. reflexivity.
    + rewrite concat_prependHead by apply splitOn_nonempty.
      rewrite IH2. reflexivity.
Qed.

(** The first piece is empty or starts as the string does. *)
Lemma splitOn_head c rest :
  exists ps, splitOn c1 c2 (String c rest) = "" :: ps \/
             exists p, splitOn c1 c2 (String c rest) = String c p :: ps.
Proof.
  rewrite splitOn_cons.
  destruct rest as [|c' rest'].
  - exists []. right. exists "". reflexivity.
  - destruct (Ascii.eqb c c1 && Ascii.eqb c' c2).
    + eexists. left. reflexivity.
    + pose proof (splitOn_nonempty (String c' rest')) as N.
      destruct (splitOn c1 c2 (String c' rest')) as [|p ps];
        [contradiction|].
      exists ps. right. exists p. reflexivity.
Qed.

(** No piece contains the separator. *)
Lemma splitOn_pieces s :
  Forall (fun p => occurs c1 c2 p = false) (splitOn c1 c2 s).
Proof.
  induction s as [| c | c c' s IH1 IH2] using string_ind2.
  - repeat constructor.
  - repeat constructor.
  - rewrite splitOn_cons.
    destruct (Ascii.eqb c c1 && Ascii.eqb c' c2) eqn:E.
    + constructor; [reflexivity | exact IH1].
    + destruct (splitOn_head c' s) as (ps & [H | (p & H)]);
        rewrite H in IH2 |- *; inversion IH2 as [|? ? Hp Hps]; subst;
        constructor; try assumption.
      cbn [append]. cbn [occurs]. rewrite E. exact Hp.
Qed.

Hypothesis distinct : c1 <> c2.

Lemma splitOn_free s : occurs c1 c2 s = false -> splitOn c1 c2 s = [s].
Proof.
  induction s as [| c | c c' s IH1 IH2] using string_ind2; intros H.
  - reflexivity.
  - reflexivity.
  - cbn [occurs] in H. apply orb_false_iff in H as [E H].
    rewrite splitOn_cons, E, (IH2 H). reflexivity.
Qed.

(** A piece without the separator, the separator and a rest: the piece is
    split off. *)
Lemma splitOn_append p rest :
  occurs c1 c2 p = false ->
  splitOn c1 c2 (p ++ sep ++ rest) = p :: splitOn c1 c2 rest.
Proof.
  induction p as [|c p IH]; intros H.
  - unfold separator. cbn [append]. rewrite splitOn_cons.
    rewrite !Ascii.eqb_refl. reflexivity.
  - cbn [append]. rewrite splitOn_cons. destruct p as [|c' p'].
    + unfold separator at 1. cbn [append].
      destruct (Ascii.eqb c c1 && Ascii.eqb c1 c2) eqn:E.
      * apply andb_prop in E as [_ E]. apply Ascii.eqb_eq in E.
        contradiction.
      * rewrite (IH eq_refl : splitOn c1 c2 (sep ++ rest) = _).
        reflexivity.
    + cbn [occurs] in H. apply orb_false_iff in H as [E H].
      cbn [append]. rewrite E.
      change (String c' (p' ++ sep ++ rest))
        with (String c' p' ++ sep ++ rest).
      rewrite (IH H). reflexivity.
Qed.

(** Pieces without the separator, joined, split into themselves. *)
Lemma splitOn_concat pieces :
  pieces <> [] ->
  Forall (fun p => occurs c1 c2 p = false) pieces ->
  splitOn c1 c2 (String.concat sep pieces) = pieces.
Proof.
  induction pieces as [|p ps IH]; intros N F; [contradiction|].
  inversion F as [|? ? Hp Hps]; subst.
  destruct ps as [|q qs].
  - cbn. apply splitOn_free, Hp.
  - change (String.concat sep (p :: q :: qs))
      with (p ++ sep ++ String.concat sep (q :: qs)).
    rewrite (splitOn_append _ _ Hp).
    rewrite IH; [reflexivity | discriminate | exact Hps].
Qed.

End SplitOn.

Lemma splitFrom_splitOnFrom s :
  forall cur, splitFrom cur s = splitOnFrom ";" " " cur s.
Proof.
  induction s as [| c | c c' s IH1 IH2] using string_ind2; intros cur.
  - reflexivity.
  - reflexivity.
  - cbn [splitFrom splitOnFrom].
    destruct (Ascii.eqb c ";" && Ascii.eqb c' " ").
    + rewrite IH1. reflexivity.
    + apply IH2.
Qed.

Lemma split_splitOn s : split s = splitOn ";" " " s.
Proof. apply splitFrom_splitOnFrom. Qed.

(* ================================================================== *)
(** * Further properties of the extraction *)
(* ================================================================== *)

(** X1: Joining the fields of a line with ["; "] gives the line back:
    splitting loses nothing. *)
Theorem split_then_join line : String.concat "; " (split line) = line.
Proof. rewrite split_splitOn. apply (concat_splitOn ";" " "). Qed.

(** X2: No field of a line contains the delimiter ["; "]. *)
Theorem split_fields_have_no_delimiter line :
  Forall (fun field => occurs ";" " " field = false) (split line).
Proof. rewrite split_splitOn. apply splitOn_pieces. Qed.

Lemma split_concat fields :
  fields <> [] ->
  Forall (fun field => occurs ";" " " field = false) fields ->
  split (String.concat "; " fields) = fields.
Proof.
  intros N F. rewrite split_splitOn.
  apply (splitOn_concat ";" " "); [discriminate | exact N | exact F].
Qed.

Lemma split_nonempty line : split line <> [].
Proof. rewrite split_splitOn. apply splitOn_nonempty. Qed.

(** X3: Eight fields that do not contain the delimiter, joined with ["; "]
    and extracted in the recurring mode, are found again in the
    specification: the name, the zone (the default one for an empty field),
    the location, the description and the recurrence kind as they are, the
    interval converted to a number, the start and the end resolved in the
    zone, or the epoch. *)
Theorem extraction_of_joined_fields P f0 f1 f2 f3 f4 f5 f6 f7 w :
  Forall (fun field => occurs ";" " " field = false)
    [f0; f1; f2; f3; f4; f5; f6; f7] ->
  let zone := if String.eqb f3 "" then "Europe/Amsterdam" else f3 in
  exists ev w1 es,
    extractEventdetails P
      (String.concat "; " [f0; f1; f2; f3; f4; f5; f6; f7])
      "New Schedule" w = mkRes (Returned ev) w1 es /\
    eventName ev = Some f0 /\
    timezone ev = Some zone /\
    eventLocation ev = Some f4 /\
    description ev = Some f5 /\
    interval ev = Some f6 /\
    frequency ev = toNumber P (trim P f7) /\
    time (startTime ev) = instantOrEpoch P f1 (Some zone) /\
    time (endTime ev) = instantOrEpoch P f2 (Some zone).
Proof.
  intros F zone.
  assert (S : split (String.concat "; " [f0; f1; f2; f3; f4; f5; f6; f7])
              = [f0; f1; f2; f3; f4; f5; f6; f7])
    by (apply split_concat; [discriminate | exact F]).
  destruct (extractEventdetails_run P _ "New Schedule" w _ _ _ _ S)
    as (dS & dE & w1 & es & E & TS & TE & _).
  cbv zeta in E, TS, TE. cbn [String.eqb Ascii.eqb Bool.eqb] in E.
  assert (Z : zoneOf [f0; f1; f2; f3; f4; f5; f6; f7] = Some zone).
  { unfold zoneOf, zone. cbn [nth_error looseEq].
    destruct (String.eqb f3 ""); reflexivity. }
  rewrite Z in E, TS, TE.
  do 3 eexists. split; [exact E|]. cbn. repeat split; assumption.
Qed.

Lemma extraction_of_joined_fields_witness :
  exists ev w1 es,
    extractEventdetails Sample.platform
      "Team Sync; 2999-01-10 09:00; 2999-01-10 10:00; ; Zoom; Weekly; weekly; 2"
      "New Schedule" Sample.start = mkRes (Returned ev) w1 es /\
    eventName ev = Some "Team Sync" /\
    timezone ev = Some "Europe/Amsterdam" /\
    interval ev = Some "weekly".
Proof.
  destruct (extraction_of_joined_fields Sample.platform
    "Team Sync" "2999-01-10 09:00" "2999-01-10 10:00" "" "Zoom" "Weekly"
    "weekly" "2" Sample.start)
    as (ev & w1 & es & E & N & Z & _ & _ & I & _).
  - repeat constructor.
  - exists ev, w1, es. repeat split; assumption.
Defined.

Lemma bind_thrown {A B} (m : M A) (f : A -> M B) w e w1 e1 :
  m w = mkRes (Thrown e) w1 e1 -> bind m f w = mkRes (Thrown e) w1 e1.
Proof. intros H. unfold bind. rewrite H. reflexivity. Qed.

(** On a line of fewer than three fields the extraction throws, having
    written to the logger at most. *)
Lemma extractEventdetails_short P line mode w :
  (List.length (split line) < 3)%nat ->
  exists w1 es,
    extractEventdetails P line mode w = mkRes (Thrown TypeError) w1 es /\
    forallb isLog es = true.
Proof.
  intros L. pose proof (split_nonempty line) as N.
  unfold extractEventdetails.
  destruct (split line) as [|p0 [|p1 [|p2 more]]];
    [contradiction | | | cbn in L; lia].
  - do 2 eexists. split; reflexivity.
  - cbn [nth_error]. unfold bind at 1. rewrite parseCustomDate_run.
    destruct (resolveInstant P p1 _); do 2 eexists; split; reflexivity.
Qed.

(** X4: The extraction throws a [TypeError] exactly on the lines of fewer
    than three fields, whatever the mode: the two dates are parsed before
    the mode is looked at. *)
Theorem extraction_throws_on_short_lines P line mode w :
  outcome (extractEventdetails P line mode w) = Thrown TypeError <->
  (List.length (split line) < 3)%nat.
Proof.
  split.
  - intros H. destruct (Nat.lt_ge_cases (List.length (split line)) 3)
      as [L | L]; [exact L|].
    exfalso.
    destruct (split line) as [|p0 [|p1 [|p2 more]]] eqn:S;
      try (cbn in L; lia).
    destruct (extractEventdetails_run P line mode w p0 p1 p2 more S)
      as (dS & dE & w1 & es & E & _).
    cbv zeta in E. rewrite E in H.
    destruct (String.eqb mode "New Event");
      [|destruct (String.eqb mode "New Schedule")]; discriminate.
  - intros L.
    destruct (extractEventdetails_short P line mode w L) as (w1 & es & E & _).
    rewrite E. reflexivity.
Qed.

(** X5: A line of fewer than three fields gets no reply: both
    [createNewDiscordSchedule] and [createNewDiscordEvent] end with the
    [TypeError], outside their [try] statement, and their trace holds lines
    of the logger only. *)
Theorem short_line_gets_no_reply P line att guild w :
  (List.length (split line) < 3)%nat ->
  (outcome (createNewDiscordSchedule P line att guild w) = Thrown TypeError /\
   forallb isLog (effects (createNewDiscordSchedule P line att guild w))
   = true) /\
  (outcome (createNewDiscordEvent P line att guild w) = Thrown TypeError /\
   forallb isLog (effects (createNewDiscordEvent P line att guild w))
   = true).
Proof.
  intros L. split.
  - destruct (extractEventdetails_short P line "New Schedule" w L)
      as (w1 & es & E & Lg).
    unfold createNewDiscordSchedule.
    rewrite (bind_returned _ _ w tt w [LogInfo (MInvokingSchedule line)])
      by reflexivity.
    rewrite (bind_thrown _ _ _ _ _ _ E). cbn. split; [reflexivity | exact Lg].
  - destruct (extractEventdetails_short P line "New Event" w L)
      as (w1 & es & E & Lg).
    unfold createNewDiscordEvent.
    rewrite (bind_returned _ _ w tt w [LogInfo (MInvokingEvent line)])
      by reflexivity.
    rewrite (bind_thrown _ _ _ _ _ _ E). cbn. split; [reflexivity | exact Lg].
Qed.

Lemma short_line_gets_no_reply_witness :
  outcome (createNewDiscordSchedule Sample.platform
             "Team Sync; 2999-01-10 09:00" "" (Some "guild") Sample.start)
  = Thrown TypeError.
Proof.
  refine (proj1 (proj1 (short_line_gets_no_reply Sample.platform
    "Team Sync; 2999-01-10 09:00" "" (Some "guild") Sample.start _))).
  vm_compute. lia.
Defined.

(** X6: In the two recognised modes the zone of an extracted specification
    is never the empty string: an empty field has been replaced by the
    default zone. *)
Theorem extracted_timezone_is_not_empty P line mode w ev w1 es :
  extractEventdetails P line mode w = mkRes (Returned ev) w1 es ->
  mode = "New Event" \/ mode = "New Schedule" ->
  looseEq (timezone ev) "" = false.
Proof.
  intros E M.
  destruct (Nat.lt_ge_cases (List.length (split line)) 3) as [L | L].
  - destruct (extractEventdetails_short P line mode w L) as (? & ? & E' & _).
    congruence.
  - destruct (split line) as [|p0 [|p1 [|p2 more]]] eqn:S;
      try (cbn in L; lia).
    destruct (extractEventdetails_run P line mode w p0 p1 p2 more S)
      as (dS & dE & w2 & es2 & E' & _).
    cbv zeta in E'. rewrite E in E'.
    assert (Z : looseEq (zoneOf (p0 :: p1 :: p2 :: more)) "" = false).
    { unfold zoneOf.
      destruct (looseEq (nth_error (p0 :: p1 :: p2 :: more) 3) "") eqn:Q;
        [reflexivity | exact Q]. }
    destruct M as [-> | ->]; cbn [String.eqb Ascii.eqb Bool.eqb] in E';
      inversion E'; exact Z.
Qed.

Lemma extracted_timezone_is_not_empty_witness :
  exists ev w1 es,
    extractEventdetails Sample.platform
      "Standup; 2999-01-10 09:00; 2999-01-10 09:30; ; Office; Daily check-in"
      "New Event" Sample.start = mkRes (Returned ev) w1 es /\
    looseEq (timezone ev) "" = false.
Proof.
  eexists _, _, _.
  refine ((fun E => conj E
             (extracted_timezone_is_not_empty Sample.platform _ _ _ _ _ _ E
                (or_introl eq_refl))) _).
  vm_compute. reflexivity.
Defined.

(** X7: The extraction reads the first eight fields of a line only: two
    lines that agree on them are extracted alike. *)
Theorem extraction_reads_eight_fields P line1 line2 mode w :
  firstn 8 (split line1) = firstn 8 (split line2) ->
  extractEventdetails P line1 mode w = extractEventdetails P line2 mode w.
Proof.
  intros H.
  assert (E : forall k, (k < 8)%nat ->
                nth_error (split line1) k = nth_error (split line2) k).
  { intros k Hk.
    pose proof (nth_error_firstn 8 (split line1) k) as A.
    pose proof (nth_error_firstn 8 (split line2) k) as B.
    apply Nat.ltb_lt in Hk. rewrite Hk in A, B. rewrite <- A, <- B, H.
    reflexivity. }
  unfold extractEventdetails.
  rewrite (E 0%nat), (E 1%nat), (E 2%nat), (E 3%nat), (E 4%nat), (E 5%nat),
    (E 6%nat), (E 7%nat) by lia.
  reflexivity.
Qed.

Lemma extraction_reads_eight_fields_witness :
  extractEventdetails Sample.platform
    "A; 2999-01-10 09:00; 2999-01-10 10:00; UTC; B; C; daily; 1; more; and more"
    "New Schedule" Sample.start =
  extractEventdetails Sample.platform
    "A; 2999-01-10 09:00; 2999-01-10 10:00; UTC; B; C; daily; 1"
    "New Schedule" Sample.start.
Proof.
  apply (extraction_reads_eight_fields Sample.platform).
  vm_compute. reflexivity.
Defined.

(** X8: The object [extractEventdetails] returns for an unrecognised mode
    is always reported by [eventHasEmptyValues]: a caller that runs the
    check rejects it. *)
Theorem fallback_object_has_empty_values P line mode w ev w1 es :
  extractEventdetails P line mode w = mkRes (Returned ev) w1 es ->
  mode <> "New Event" -> mode <> "New Schedule" ->
  returned (eventHasEmptyValues P ev w1) = Some true.
Proof.
  intros E M1 M2.
  destruct (Nat.lt_ge_cases (List.length (split line)) 3) as [L | L].
  - destruct (extractEventdetails_short P line mode w L) as (? & ? & E' & _).
    congruence.
  - destruct (split line) as [|p0 [|p1 [|p2 more]]] eqn:S;
      try (cbn in L; lia).
    destruct (extractEventdetails_run P line mode w p0 p1 p2 more S)
      as (dS & dE & w2 & es2 & E' & _).
    cbv zeta in E'. rewrite E in E'.
    apply String.eqb_neq in M1, M2. rewrite M1, M2 in E'.
    inversion E'. reflexivity.
Qed.

Lemma fallback_object_has_empty_values_witness :
  exists ev w1 es,
    extractEventdetails Sample.platform
      "Standup; 2999-01-10 09:00; 2999-01-10 09:30; UTC; Office; Daily"
      "Old Event" Sample.start = mkRes (Returned ev) w1 es /\
    returned (eventHasEmptyValues Sample.platform ev w1) = Some true.
Proof.
  eexists _, _, _.
  refine ((fun E => conj E
             (fallback_object_has_empty_values Sample.platform _ _ _ _ _ _ E
                _ _)) _).
  - discriminate.
  - discriminate.
  - vm_compute. reflexivity.
Defined.

(** X9: A line of the recurring mode with three to six fields, none of them
    empty, is extracted into a specification whose missing fields are
    [undefined] and whose interval is [NaN], and [eventHasEmptyValues]
    reports no empty value on it: a missing field is not an empty one. *)
Theorem missing_fields_are_not_empty P line w p0 p1 p2 more :
  split line = p0 :: p1 :: p2 :: more ->
  (List.length more <= 3)%nat ->
  Forall (fun field => field <> "") (p0 :: more) ->
  exists ev w1 es,
    extractEventdetails P line "New Schedule" w = mkRes (Returned ev) w1 es /\
    interval ev = None /\ frequency ev = NaN /\
    returned (eventHasEmptyValues P ev w1) = Some false.
Proof.
  intros S L F.
  destruct (extractEventdetails_run P line "New Schedule" w p0 p1 p2 more S)
    as (dS & dE & w1 & es & E & _ & _ & RS & RE & _).
  cbv zeta in E. cbn [String.eqb Ascii.eqb Bool.eqb] in E.
  match type of E with _ = mkRes (Returned ?e) _ _ => set (ev := e) in * end.
  destruct (eventHasEmptyValues_fields P ev w1) as (w2 & C);
    [split; assumption|].
  exists ev, w1, es. split; [exact E|].
  assert (N : forall f, f <> "" -> String.eqb f "" = false)
    by (intros f; apply String.eqb_neq).
  inversion F as [|? ? F0 Fm]; subst.
  destruct more as [|z [|l [|d [|x more]]]]; try (cbn in L; lia);
    (split; [reflexivity|]); (split; [reflexivity|]);
    unfold returned; rewrite C; cbn [outcome]; f_equal;
    unfold emptyFields, ev, zoneOf; cbn; rewrite (N p0 F0).
  - reflexivity.
  - inversion Fm; subst. rewrite (N z) by assumption. cbn.
    rewrite (N z) by assumption. reflexivity.
  - inversion Fm as [|? ? Fz Fm']; subst. inversion Fm'; subst.
    rewrite (N z) by assumption. cbn.
    rewrite (N z), (N l) by assumption. reflexivity.
  - inversion Fm as [|? ? Fz Fm']; subst.
    inversion Fm' as [|? ? Fl Fm'']; subst. inversion Fm''; subst.
    rewrite (N z) by assumption. cbn.
    rewrite (N z), (N l), (N d) by assumption. reflexivity.
Qed.

Lemma missing_fields_are_not_empty_witness :
  exists ev w1 es,
    extractEventdetails Sample.platform
      "Team Sync; 2999-01-10 09:00; 2999-01-10 10:00" "New Schedule"
      Sample.start = mkRes (Returned ev) w1 es /\
    returned (eventHasEmptyValues Sample.platform ev w1) = Some false.
Proof.
  destruct (missing_fields_are_not_empty Sample.platform
    "Team Sync; 2999-01-10 09:00; 2999-01-10 10:00" Sample.start
    "Team Sync" "2999-01-10 09:00" "2999-01-10 10:00" [] eq_refl)
    as (ev & w1 & es & E & _ & _ & C).
  - cbn. lia.
  - repeat constructor. discriminate.
  - exists ev, w1, es. split; assumption.
Defined.

(** X10: [eventHasEmptyValues] does not depend on the dates: with any two
    other dates of the run in their place the answer is the same. *)
Theorem eventHasEmptyValues_ignores_dates P ev d1 d2 w :
  allocated ev w ->
  (ref d1 < nextRef w)%nat -> (ref d2 < nextRef w)%nat ->
  returned (eventHasEmptyValues P
              (mkEventDetails (eventName ev) d1 d2 (timezone ev)
                 (eventLocation ev) (description ev) (interval ev)
                 (frequency ev)) w)
  = returned (eventHasEmptyValues P ev w).
Proof.
  intros A R1 R2.
  destruct (eventHasEmptyValues_fields P ev w A) as (w1 & C).
  destruct (eventHasEmptyValues_fields P
              (mkEventDetails (eventName ev) d1 d2 (timezone ev)
                 (eventLocation ev) (description ev) (interval ev)
                 (frequency ev)) w) as (w2 & C');
    [split; assumption|].
  unfold returned. rewrite C, C'. reflexivity.
Qed.

Lemma eventHasEmptyValues_ignores_dates_witness :
  returned (eventHasEmptyValues Sample.platform
              (Sample.schedule "Standup" Sample.noon 0 "daily" (int 1))
              Sample.extracted)
  = returned (eventHasEmptyValues Sample.platform
                (Sample.schedule "Standup" Sample.nine Sample.ten "daily"
                   (int 1))
                Sample.extracted).
Proof.
  refine (eventHasEmptyValues_ignores_dates Sample.platform
            (Sample.schedule "Standup" Sample.nine Sample.ten "daily" (int 1))
            (mkDate 1 Sample.noon) (mkDate 3 0) Sample.extracted _ _ _);
    [split|..]; cbn; lia.
Defined.

(** The line of scenario A, in the single mode. *)
Lemma single_events_are_incomplete_witness :
  verdictOf (effects (createNewDiscordEvent Sample.platform
    "Standup; 2999-01-10 09:00; 2999-01-10 09:30; Europe/Berlin; Office; Daily check-in"
    "" (Some "guild") Sample.start))
  = Rejected IncompleteSpecification.
Proof.
  apply (single_events_are_incomplete Sample.platform). vm_compute. lia.
Defined.

Lemma created_of_logs es : forallb isLog es = true -> created es = [].
Proof.
  induction es as [|e es IH]; [reflexivity|].
  cbn [forallb]. intros H. apply andb_prop in H as [He Hes].
  destruct e; try discriminate; cbn; auto.
Qed.

Lemma created_app a b : created (a ++ b) = (created a ++ created b)%list.
Proof.
  induction a as [|e a IH]; [reflexivity|].
  destruct e; cbn; rewrite IH; reflexivity.
Qed.

(** X12: [createNewDiscordEvent] hands nothing to the event creation,
    whatever the line: the interval and the frequency [eventHasEmptyValues]
    tests are the ones the extraction leaves empty in the single mode. *)
Theorem createNewDiscordEvent_creates_nothing P line att guild w :
  created (effects (createNewDiscordEvent P line att guild w)) = [].
Proof.
  destruct (Nat.lt_ge_cases (List.length (split line)) 3) as [L | L].
  - apply created_of_logs.
    destruct (extractEventdetails_short P line "New Event" w L)
      as (w1 & es & E & Lg).
    unfold createNewDiscordEvent.
    rewrite (bind_returned _ _ w tt w [LogInfo (MInvokingEvent line)])
      by reflexivity.
    rewrite (bind_thrown _ _ _ _ _ _ E). exact Lg.
  - destruct (split line) as [|p0 [|p1 [|p2 more]]] eqn:S;
      try (cbn in L; lia).
    destruct (extractEventdetails_run P line "New Event" w p0 p1 p2 more S)
      as (dS & dE & w1 & es & E & _ & _ & RS & RE & Lg).
    cbv zeta in E. cbn [String.eqb Ascii.eqb Bool.eqb] in E.
    match type of E with _ = mkRes (Returned ?e) _ _ => set (ev := e) in *
    end.
    rewrite (createNewDiscordEvent_effects P line att guild w ev w1 es E).
    cbn [created]. rewrite created_app, (created_of_logs es Lg).
    destruct (eventHasEmptyValues_fields P ev w1) as (w2 & C);
      [split; assumption|].
    rewrite createEventFrom_checks.
    rewrite (threeChecks_effects P _ _ _ _ _ _ _ _ C).
    replace (emptyFields ev) with true; [reflexivity|].
    unfold emptyFields. cbn. rewrite !orb_true_r. reflexivity.
Qed.

(* ================================================================== *)
(** * Further properties of [createNewDiscordSchedule] *)
(* ================================================================== *)

(** The complete trace of the [try] statement, case by case. *)
Lemma scheduleTry_trace P att guild ev w :
  effects (scheduleTry P att guild ev w) =
  match guild with
  | None => [LogError MNoServer]
  | Some g =>
      if fetchGuild P g then
        let done frequence :=
          MScheduleCreated (eventName ev) (startTime ev) (interval ev)
            (frequency ev) frequence in
        let failed e :=
          [LogError (MFailedToCreate e); Send (MFailedToCreate e)] in
        if strictEq (interval ev) "daily" then
          let o := scheduleOptions att ev Discord.Daily [] in
          LogInfo MTryDaily :: Create o ::
          (if createEvent P o
           then [LogInfo (done "day"); Send (done "day")]
           else failed ApiError)
        else if strictEq (interval ev) "weekly" then
          LogInfo MTryWeekly ::
          (if weeklyIntervalPasses (frequency ev) then
             if weekdayValue P (weekdayOf P (startTime ev)) =? 0 then
               failed (InvalidWeekdayIndex (getDay P (startTime ev)))
             else
               let o := scheduleOptions att ev Discord.Weekly
                          [weekdayOf P (startTime ev)] in
               Create o ::
               (if createEvent P o
                then [LogInfo (done "week"); Send (done "week")]
                else failed ApiError)
           else [LogError (MWeeklyInterval (frequency ev));
                 Send (MWeeklyInterval (frequency ev))])
        else if strictEq (interval ev) "monthly"
                || strictEq (interval ev) "yearly" then
          [LogError MMonthlyNotWorking; Send MMonthlyNotWorking;
           LogInfo (done ""); Send (done "")]
        else [LogError (MCouldNotFetchSchedule (interval ev));
              Send (MScheduleNotValid (interval ev))]
      else [LogError (MFailedToCreate ApiError);
            Send (MFailedToCreate ApiError)]
  end.
Proof.
  destruct guild as [g|]; [|reflexivity].
  unfold scheduleTry, tryCatch, bind, guildsFetch.
  destruct (fetchGuild P g); [|reflexivity].
  unfold scheduleSwitch, scheduledEventsCreate, bind, weeklyIntervalPasses.
  destruct (strictEq (interval ev) "daily").
  { cbn. destruct (createEvent P _); reflexivity. }
  destruct (strictEq (interval ev) "weekly").
  { destruct (JS.gt (frequency ev) (int 2) || JS.lt (frequency ev) (int 0));
      [reflexivity|].
    cbn -[getWeekdayNameFromDate]. rewrite getWeekdayNameFromDate_run.
    destruct (weekdayValue P _ =? 0); [reflexivity|].
    cbn. destruct (createEvent P _); reflexivity. }
  destruct (strictEq (interval ev) "monthly"); [reflexivity|].
  destruct (strictEq (interval ev) "yearly"); reflexivity.
Qed.

Lemma strictEq_eq v s : strictEq v s = true -> v = Some s.
Proof.
  destruct v as [x|]; [|discriminate]. cbn. intros H.
  apply String.eqb_eq in H. congruence.
Qed.

(** X13: A call of [createNewDiscordSchedule]'s body hands at most one
    specification to the event creation, and only when the server was
    fetched, the completeness check reported nothing, both instants lay
    after the clock, the start lay before the end, and the recurrence is
    daily, or weekly with an interval that passes the test. *)
Theorem schedule_created_only_after_checks P info att guild ev w :
  let run := createScheduleFrom P info att guild ev w in
  let w1 := world (scheduleHasEmptyValues P ev w) in
  created (effects run) = [] \/
  exists o g,
    created (effects run) = [o] /\
    guild = Some g /\ fetchGuild P g = true /\
    returned (scheduleHasEmptyValues P ev w) = Some false /\
    clockAt P (reads w1) < time (startTime ev) /\
    clockAt P (S (reads w1)) < time (endTime ev) /\
    time (startTime ev) < time (endTime ev) /\
    (interval ev = Some "daily" \/
     interval ev = Some "weekly" /\
     weeklyIntervalPasses (frequency ev) = true).
Proof.
  cbv zeta. rewrite createScheduleFrom_checks.
  destruct (scheduleHasEmptyValues_quiet P ev w) as (b & w1 & E).
  rewrite (threeChecks_effects P _ _ _ _ _ _ _ _ E).
  unfold returned. rewrite E. cbn [outcome world].
  destruct b; [left; reflexivity|].
  destruct (Z.leb_spec (time (startTime ev)) (clockAt P (reads w1)));
    [left; reflexivity|].
  destruct (Z.leb_spec (time (endTime ev)) (clockAt P (S (reads w1))));
    [left; reflexivity|].
  cbn [orb].
  destruct (Z.leb_spec (time (endTime ev)) (time (startTime ev)));
    [left; reflexivity|].
  rewrite scheduleTry_trace.
  destruct guild as [g|]; [|left; reflexivity].
  destruct (fetchGuild P g) eqn:G; [|left; reflexivity].
  cbv zeta.
  destruct (strictEq (interval ev) "daily") eqn:D.
  { right. apply strictEq_eq in D.
    exists (scheduleOptions att ev Discord.Daily []), g.
    split; [destruct (createEvent P _); reflexivity|].
    repeat split; try assumption. left. exact D. }
  destruct (strictEq (interval ev) "weekly") eqn:K.
  { destruct (weeklyIntervalPasses (frequency ev)) eqn:F;
      [|left; reflexivity].
    destruct (weekdayValue P _ =? 0); [left; reflexivity|].
    right. apply strictEq_eq in K.
    exists (scheduleOptions att ev Discord.Weekly
              [weekdayOf P (startTime ev)]), g.
    split; [destruct (createEvent P _); reflexivity|].
    repeat split; try assumption. right. split; [exact K | reflexivity]. }
  destruct (strictEq (interval ev) "monthly" || strictEq (interval ev) "yearly");
    left; reflexivity.
Qed.

(** X14: The message that the event was created is sent by the [try]
    statement only after a call of the event creation that resolved, or
    for a monthly or yearly recurrence. *)
Theorem created_message_follows_creation P att guild ev w n s i f fr :
  In (Send (MScheduleCreated n s i f fr))
     (effects (scheduleTry P att guild ev w)) ->
  (exists o, created (effects (scheduleTry P att guild ev w)) = [o] /\
             createEvent P o = true) \/
  interval ev = Some "monthly" \/ interval ev = Some "yearly".
Proof.
  rewrite scheduleTry_trace.
  destruct guild as [g|]; [|cbn; intuition discriminate].
  destruct (fetchGuild P g); [|cbn; intuition discriminate].
  cbv zeta.
  destruct (strictEq (interval ev) "daily").
  { destruct (createEvent P _) eqn:C; cbn; [|intuition discriminate].
    intros _. left. eexists. split; [reflexivity | exact C]. }
  destruct (strictEq (interval ev) "weekly").
  { destruct (weeklyIntervalPasses (frequency ev));
      [|cbn; intuition discriminate].
    destruct (weekdayValue P _ =? 0); [cbn; intuition discriminate|].
    destruct (createEvent P _) eqn:C; cbn; [|intuition discriminate].
    intros _. left. eexists. split; [reflexivity | exact C]. }
  destruct (strictEq (interval ev) "monthly") eqn:Mo.
  { intros _. right. left. apply strictEq_eq, Mo. }
  destruct (strictEq (interval ev) "yearly") eqn:Y.
  { intros _. right. right. apply strictEq_eq, Y. }
  cbn. intuition discriminate.
Qed.

Lemma created_message_follows_creation_witness :
  (exists o,
     created (effects (scheduleTry Sample.platform "" (Some "guild")
        (Sample.schedule "Standup" Sample.nine Sample.ten "daily" (int 1))
        Sample.extracted)) = [o] /\
     createEvent Sample.platform o = true) \/
  Some "daily" = Some "monthly" \/ Some "daily" = Some "yearly".
Proof.
  apply (created_message_follows_creation Sample.platform "" (Some "guild")
    (Sample.schedule "Standup" Sample.nine Sample.ten "daily" (int 1))
    Sample.extracted (Some "Standup") (mkDate 1 Sample.nine) (Some "daily")
    (int 1) "day").
  vm_compute. tauto.
Defined.

(** X15: For a monthly or a yearly recurrence, with a server that is
    fetched, the [try] statement sends the message that the recurrence does
    not work and then, the case being left with [break], the message that
    the event was created, although nothing was handed to the event
    creation. *)
Theorem unsupported_kind_reports_creation P att g ev w :
  fetchGuild P g = true ->
  interval ev = Some "monthly" \/ interval ev = Some "yearly" ->
  let done :=
    MScheduleCreated (eventName ev) (startTime ev) (interval ev)
      (frequency ev) "" in
  effects (scheduleTry P att (Some g) ev w) =
  [LogError MMonthlyNotWorking; Send MMonthlyNotWorking;
   LogInfo done; Send done] /\
  created (effects (scheduleTry P att (Some g) ev w)) = [].
Proof.
  intros G K. cbv zeta. rewrite scheduleTry_trace, G.
  destruct K as [K | K]; rewrite K; cbn; split; reflexivity.
Qed.

Lemma unsupported_kind_reports_creation_witness :
  In (Send (MScheduleCreated (Some "Board") (mkDate 1 Sample.nine)
              (Some "yearly") (int 1) ""))
     (effects (scheduleTry Sample.platform "" (Some "guild")
        (Sample.schedule "Board" Sample.nine Sample.ten "yearly" (int 1))
        Sample.extracted)).
Proof.
  rewrite (proj1 (unsupported_kind_reports_creation Sample.platform ""
    "guild" (Sample.schedule "Board" Sample.nine Sample.ten "yearly" (int 1))
    Sample.extracted eq_refl (or_intror eq_refl))).
  cbn. tauto.
Defined.

(** X16: When the three checks pass and there is no server identifier, or
    the server cannot be fetched, nothing is created; without an identifier
    the only trace is a line in the log and the reply channel gets no
    message, in both modes. *)
Theorem without_server_nothing_is_created P info att ev w w1 :
  scheduleHasEmptyValues P ev w = mkRes (Returned false) w1 [] ->
  clockAt P (reads w1) < time (startTime ev) ->
  clockAt P (S (reads w1)) < time (endTime ev) ->
  time (startTime ev) < time (endTime ev) ->
  effects (createScheduleFrom P info att None ev w) = [LogError MNoServer] /\
  (forall g, fetchGuild P g = false ->
     effects (createScheduleFrom P info att (Some g) ev w) =
     [LogError (MFailedToCreate ApiError); Send (MFailedToCreate ApiError)]).
Proof.
  intros E T1 T2 O.
  apply Z.leb_gt in T1, T2, O.
  split; [|intros g G]; rewrite createScheduleFrom_checks,
    (threeChecks_effects P _ _ _ _ _ _ _ _ E), T1, T2, O, scheduleTry_trace;
    [|rewrite G]; reflexivity.
Qed.

Lemma without_server_nothing_is_created_witness :
  effects (createScheduleFrom Sample.platform "info" "" None
             (Sample.schedule "Standup" Sample.nine Sample.ten "daily"
                (int 1))
             Sample.extracted) = [LogError MNoServer].
Proof.
  refine (proj1 (without_server_nothing_is_created Sample.platform "info" ""
    (Sample.schedule "Standup" Sample.nine Sample.ten "daily" (int 1))
    Sample.extracted (mkWorld 2 6) _ _ _ _)); vm_compute; reflexivity.
Defined.




(* ================================================================== *)
(** * Further properties of [additionalFunctions.ts] *)
(* ================================================================== *)

(** X19: [getWeekdayNameFromDate] never looks outside its table of seven
    days.  It throws exactly when the member of the enumeration it finds has
    the value 0, with an index between 0 and 6 in the message; otherwise it
    returns that member, and it writes nothing. *)
Theorem weekday_lookup_stays_in_table P d w :
  0 <= getDay P d < 7 /\
  nth_error days (Z.to_nat (getDay P d)) = Some (weekdayOf P d) /\
  (outcome (getWeekdayNameFromDate P d w) = Returned (weekdayOf P d) <->
   weekdayValue P (weekdayOf P d) <> 0) /\
  (outcome (getWeekdayNameFromDate P d w)
   = Thrown (InvalidWeekdayIndex (getDay P d)) <->
   weekdayValue P (weekdayOf P d) = 0) /\
  effects (getWeekdayNameFromDate P d w) = [].
Proof.
  pose proof (getDay_range P d) as R.
  split; [exact R|]. split.
  - unfold weekdayOf. apply nth_error_nth'.
    change (List.length days) with 7%nat. lia.
  - rewrite getWeekdayNameFromDate_run.
    destruct (Z.eqb_spec (weekdayValue P (weekdayOf P d)) 0) as [E | E];
      cbn [outcome effects].
    + split; [split; [discriminate | contradiction]|].
      split; [split; [intros _; exact E | reflexivity] | reflexivity].
    + split; [split; [intros _; exact E | reflexivity]|].
      split; [split; [discriminate | contradiction] | reflexivity].
Qed.

(** X20: The three groups the regular expression of [parseCustomDate]
    captures, put together again by the template, are the text itself: what
    luxon is given to parse is the text that matched. *)
Theorem matched_text_is_reassembled text datePart hourStr minuteStr :
  matchDateTime text = Some (datePart, hourStr, minuteStr) ->
  datePart ++ " " ++ hourStr ++ ":" ++ minuteStr = text.
Proof.
  intros H. unfold matchDateTime in H.
  pose proof (string_of_list_ascii_of_string text) as T.
  destruct (list_ascii_of_string text) as [|y1 l]; [congruence|].
  destruct l as [|y2 l]; [congruence|].
  destruct l as [|y3 l]; [congruence|].
  destruct l as [|y4 l]; [congruence|].
  destruct l as [|s1 l]; [congruence|].
  destruct l as [|m1 l]; [congruence|].
  destruct l as [|m2 l]; [congruence|].
  destruct l as [|s2 l]; [congruence|].
  destruct l as [|d1 l]; [congruence|].
  destruct l as [|d2 l]; [congruence|].
  destruct l as [|s3 l]; [congruence|].
  destruct l as [|h1 l]; [congruence|].
  destruct l as [|h2 l]; [congruence|].
  destruct l as [|s4 l]; [congruence|].
  destruct l as [|n1 l]; [congruence|].
  destruct l as [|n2 l]; [congruence|].
  destruct l as [|x l]; [|congruence].
  match type of H with (if ?c then _ else _) = _ =>
    destruct c eqn:C; [|congruence] end.
  apply andb_prop in C as [C E4]. apply andb_prop in C as [C E3].
  apply Ascii.eqb_eq in E3, E4. subst s3 s4.
  injection H as <- <- <-. rewrite <- T. reflexivity.
Qed.

Lemma matched_text_is_reassembled_witness :
  "2999-01-10" ++ " " ++ "09" ++ ":" ++ "30" = "2999-01-10 09:30".
Proof.
  exact (matched_text_is_reassembled "2999-01-10 09:30" "2999-01-10" "09"
           "30" eq_refl).
Defined.

(* ================================================================== *)
(** * The handler of [MessageCreate] *)
(* ================================================================== *)

Lemma removeBotPrefix_other c0 t0 :
  Ascii.eqb c0 "!" = false ->
  removeBotPrefix (String c0 t0) = String c0 (removeBotPrefix t0).
Proof.
  intros H. cbn [removeBotPrefix].
  destruct t0 as [|c1 [|c2 [|c3 [|c4 r]]]]; try reflexivity.
  unfold botPrefixAt. rewrite H. reflexivity.
Qed.

Lemma removeBotPrefix_match c0 c1 c2 c3 c4 rest :
  botPrefixAt c0 c1 c2 c3 c4 = true ->
  removeBotPrefix
    (String c0 (String c1 (String c2 (String c3 (String c4 rest))))) =
  removeBotPrefix rest.
Proof. intros H. cbn [removeBotPrefix]. rewrite H. reflexivity. Qed.

Lemma removeBotPrefix_free s :
  mentionsBotPrefix s = false -> removeBotPrefix s = s.
Proof.
  induction s as [|c0 t0 IH]; [reflexivity|].
  intros H. cbn [removeBotPrefix mentionsBotPrefix] in *.
  destruct t0 as [|c1 [|c2 [|c3 [|c4 r]]]];
    try (rewrite (IH H); reflexivity).
  apply orb_false_iff in H as [B H]. rewrite B, (IH H). reflexivity.
Qed.

Lemma mentionsBotPrefix_other c0 t0 :
  Ascii.eqb c0 "!" = false ->
  mentionsBotPrefix (String c0 t0) = mentionsBotPrefix t0.
Proof.
  intros H. cbn [mentionsBotPrefix].
  destruct t0 as [|c1 [|c2 [|c3 [|c4 r]]]]; try reflexivity.
  unfold botPrefixAt. rewrite H. reflexivity.
Qed.

(** X21: The lines of a message that do not start with the prefix
    ["!dmb "], in this very case, play no role: the handler does what it
    does on the other lines alone. *)
Theorem unprefixed_lines_are_ignored att guild channel lines :
  handleLines att guild channel (filter (String.prefix "!dmb ") lines) =
  handleLines att guild channel lines.
Proof.
  induction lines as [|line rest IH]; [reflexivity|].
  cbn [filter handleLines].
  destruct (String.prefix "!dmb " line) eqn:E; [|exact IH].
  cbn [handleLines]. rewrite E, IH. reflexivity.
Qed.

(** X22: A prefixed line whose operation is neither [New Event] nor
    [New Schedule] ends the handler: the lines after it are not looked at,
    whatever they are. *)
Theorem invalid_operation_ends_the_handler att guild channel
    before line after :
  String.prefix "!dmb " line = true ->
  strictEq (operationOf line) "New Event" = false ->
  strictEq (operationOf line) "New Schedule" = false ->
  handleLines att guild channel (before ++ line :: after) =
  handleLines att guild channel (before ++ [line]) /\
  handleLines att guild channel (line :: after) =
  [InvalidOperation (operationOf line)].
Proof.
  intros Hp H1 H2. unfold operationOf in *.
  assert (E : forall rest, handleLines att guild channel (line :: rest) =
              [InvalidOperation
                 (nth_error (splitOn ":" " " (removeBotPrefix line)) 0)]).
  { intros rest. cbn [handleLines]. rewrite Hp, H1, H2. reflexivity. }
  split; [|apply E].
  induction before as [|l before IH].
  - cbn [app]. rewrite !E. reflexivity.
  - cbn [app handleLines]. rewrite IH. reflexivity.
Qed.

Lemma invalid_operation_ends_the_handler_witness :
  handleLines "" (Some "guild") "channel"
    ["!dmb Cancel: Standup";
     "!dmb New Event: Standup; 2999-01-10 09:00; 2999-01-10 09:30; UTC; Office; Daily"]
  = [InvalidOperation (Some "Cancel")].
Proof.
  exact (proj2 (invalid_operation_ends_the_handler "" (Some "guild")
    "channel" [] "!dmb Cancel: Standup"
    ["!dmb New Event: Standup; 2999-01-10 09:00; 2999-01-10 09:30; UTC; Office; Daily"]
    eq_refl eq_refl eq_refl)).
Defined.

(** The data an action forwards. *)
Lemma handleLines_data att guild channel lines :
  Forall (fun a =>
            forall info,
              (exists x g c, a = CallNewDiscordEvent (Some info) x g c) \/
              (exists x g c, a = CallNewDiscordSchedule (Some info) x g c) ->
              occurs ":" " " info = false)
         (handleLines att guild channel lines).
Proof.
  assert (D : forall line info,
            nth_error (splitOn ":" " " (removeBotPrefix line)) 1 = Some info ->
            occurs ":" " " info = false).
  { intros line info H. apply nth_error_In in H.
    pose proof (splitOn_pieces ":" " " (removeBotPrefix line)) as F.
    rewrite Forall_forall in F. apply F, H. }
  induction lines as [|line rest IH]; [constructor|].
  cbn [handleLines].
  destruct (String.prefix "!dmb " line); [|exact IH].
  destruct (strictEq (nth_error (splitOn ":" " " (removeBotPrefix line)) 0)
              "New Event").
  { constructor; [|constructor; [|exact IH]].
    - intros info [(x & g & c & E) | (x & g & c & E)]; [|discriminate].
      injection E as E _ _ _. apply (D line). exact E.
    - intros info [(x & g & c & E) | (x & g & c & E)]; discriminate. }
  destruct (strictEq (nth_error (splitOn ":" " " (removeBotPrefix line)) 0)
              "New Schedule").
  { constructor; [|constructor; [|exact IH]].
    - intros info [(x & g & c & E) | (x & g & c & E)]; [discriminate|].
      injection E as E _ _ _. apply (D line). exact E.
    - intros info [(x & g & c & E) | (x & g & c & E)]; discriminate. }
  constructor; [|constructor].
  intros info [(x & g & c & E) | (x & g & c & E)]; discriminate.
Qed.

(** X23: The data the handler forwards to [createNewDiscordEvent] or to
    [createNewDiscordSchedule] never contains a colon followed by a space:
    of a line it forwards what stands between the first and the second
    [": "], and what follows the second is dropped. *)
Theorem forwarded_data_has_no_colon_space message info att guild channel :
  In (CallNewDiscordEvent (Some info) att guild channel)
     (onMessageCreate message) \/
  In (CallNewDiscordSchedule (Some info) att guild channel)
     (onMessageCreate message) ->
  occurs ":" " " info = false.
Proof.
  unfold onMessageCreate.
  pose proof (handleLines_data (imageAttachment (attachments message))
                (guildId message) (channelId message)
                (splitLines (content message))) as F.
  rewrite Forall_forall in F.
  intros [H | H]; apply (F _ H); [left | right]; do 3 eexists; reflexivity.
Qed.

Lemma forwarded_data_has_no_colon_space_witness :
  occurs ":" " " "Standup" = false.
Proof.
  apply (forwarded_data_has_no_colon_space
           (mkIncomingMessage
              "!dmb New Event: Standup: the daily one; 2999-01-10 09:00"
              [] (Some "guild") "channel")
           "Standup" "" (Some "guild") "channel").
  left. vm_compute. tauto.
Defined.

(** X24: A line made of the prefix, an operation, [": "] and data that
    contain neither [": "] nor a match of the prefix (in any case of its
    letters) is dispatched to the function of the operation with exactly
    these data, and acknowledged. *)
Theorem command_line_is_dispatched att guild channel info rest :
  occurs ":" " " info = false ->
  mentionsBotPrefix info = false ->
  handleLines att guild channel (("!dmb New Event: " ++ info) :: rest) =
  CallNewDiscordEvent (Some info) att guild channel :: React
  :: handleLines att guild channel rest
  /\
  handleLines att guild channel (("!dmb New Schedule: " ++ info) :: rest) =
  CallNewDiscordSchedule (Some info) att guild channel :: React
  :: handleLines att guild channel rest.
Proof.
  intros Hc Hm.
  assert (D : forall op,
            occurs ":" " " op = false ->
            splitOn ":" " " (op ++ separator ":" " " ++ info) = [op; info]).
  { intros op Ho.
    rewrite (splitOn_append ":" " " ltac:(discriminate) op info Ho).
    rewrite (splitOn_free ":" " " info Hc). reflexivity. }
  split.
  - assert (R : removeBotPrefix ("!dmb New Event: " ++ info)
                = "New Event" ++ separator ":" " " ++ info).
    { cbn [append]. rewrite removeBotPrefix_match by reflexivity.
      rewrite !removeBotPrefix_other by reflexivity.
      rewrite (removeBotPrefix_free info Hm). reflexivity. }
    cbn [handleLines].
    replace (String.prefix "!dmb " ("!dmb New Event: " ++ info)) with true
      by reflexivity.
    rewrite R, (D "New Event" eq_refl). reflexivity.
  - assert (R : removeBotPrefix ("!dmb New Schedule: " ++ info)
                = "New Schedule" ++ separator ":" " " ++ info).
    { cbn [append]. rewrite removeBotPrefix_match by reflexivity.
      rewrite !removeBotPrefix_other by reflexivity.
      rewrite (removeBotPrefix_free info Hm). reflexivity. }
    cbn [handleLines].
    replace (String.prefix "!dmb " ("!dmb New Schedule: " ++ info)) with true
      by reflexivity.
    rewrite R, (D "New Schedule" eq_refl). reflexivity.
Qed.

Lemma command_line_is_dispatched_witness :
  onMessageCreate
    (mkIncomingMessage
       "!dmb New Schedule: Team Sync; 2999-01-10 09:00; 2999-01-10 10:00; UTC; Zoom; Weekly; weekly; 1"
       [mkAttachment (Some "text/plain") "notes";
        mkAttachment (Some "image/png") "banner"]
       (Some "guild") "channel")
  = [CallNewDiscordSchedule
       (Some "Team Sync; 2999-01-10 09:00; 2999-01-10 10:00; UTC; Zoom; Weekly; weekly; 1")
       "banner" (Some "guild") "channel"; React].
Proof.
  exact (proj2 (command_line_is_dispatched "banner" (Some "guild") "channel"
    "Team Sync; 2999-01-10 09:00; 2999-01-10 10:00; UTC; Zoom; Weekly; weekly; 1"
    [] eq_refl eq_refl)).
Defined.
